(** * MCPAuthPrototype: bearer-token authentication and scope-based
      authorization of MCP tools

    A shallow embedding of [src/auth.py] (the credential validator),
    [src/tools.py] (the scope registry), [src/config.py] (the settings the
    validator reads) and of the two hooks of [AuthMiddleware] in
    [src/server.py], followed by the properties of the authorization layer.

    Conventions of the embedding.
    - Python [str] is [string]; header values and scheme names are ASCII.
    - Values decoded from a token (the JWT payload is JSON) are [pyval].
    - An exception raised by [validate_token] is the [Err] case of [result];
      the hooks, which also log, live in the writer-and-exception monad [M].
    - [jwt.decode] belongs to the PyJWT library, not to this repository: it
      is a parameter of the development ([jwt_decode]).  The clock PyJWT
      reads for the expiry check is made an explicit argument. *)

From Stdlib Require Import ZArith Ascii String.
From stdpp Require Import base option list gmap strings.

#[local] Set Warnings "-register-all".

Local Open Scope string_scope.
Local Open Scope Z_scope.

(** ** Python values and strings *)

(** The values [json.loads] can produce, which is what a JWT payload holds. *)
Inductive pyval : Type :=
  | PNone
  | PBool (b : bool)
  | PInt (z : Z)
  | PFloat (mantissa exponent : Z)
  | PStr (s : string)
  | PList (items : list pyval)
  | PDict (entries : list (string * pyval)).

(** [isinstance(v, list)] *)
Definition isinstance_list (v : pyval) : bool :=
  match v with PList _ => true | _ => false end.

(** [isinstance(v, str)] *)
Definition isinstance_str (v : pyval) : bool :=
  match v with PStr _ => true | _ => false end.

(** The Python list behind a [PList] whose entries are all [str]. *)
Definition str_of (v : pyval) : string :=
  match v with PStr s => s | _ => "" end.

(** Truthiness of [str | None], as tested by [if not header] and
    [if required_scope and ...]. *)
Definition truthy (o : option string) : bool :=
  match o with
  | None => false
  | Some EmptyString => false
  | Some (String _ _) => true
  end.

(** [c.lower()] on one ASCII character. *)
Definition lower_ascii (c : ascii) : ascii :=
  let n := N_of_ascii c in
  if ((65 <=? n) && (n <=? 90))%N then ascii_of_N (n + 32) else c.

(** [s.lower()] *)
Fixpoint lower (s : string) : string :=
  match s with
  | EmptyString => EmptyString
  | String c rest => String (lower_ascii c) (lower rest)
  end.

(** [s.partition(" ")] when the separator occurs: the text before the first
    space and the text after it. *)
Fixpoint cut_at_space (s : string) : option (string * string) :=
  match s with
  | EmptyString => None
  | String c rest =>
      if Ascii.eqb c " "%char then Some (EmptyString, rest)
      else match cut_at_space rest with
           | Some (before, after) => Some (String c before, after)
           | None => None
           end
  end.

(** [s.split(" ", 1)]: at most one split, at the first space. *)
Definition split_space_1 (s : string) : list string :=
  match cut_at_space s with
  | Some (before, after) => [before; after]
  | None => [s]
  end.

(** ** src/config.py *)

Module config.

Record Settings := {
  jwt_secret_key : string;
  jwt_algorithm : string
}.

(** The defaults of [class Settings]. *)
Definition settings : Settings :=
  {| jwt_secret_key := "dev-secret-change-me"; jwt_algorithm := "HS256" |}.

End config.

(** ** src/tools.py *)

Module tools.

Definition TOOL_SCOPE_MAP : gmap string string :=
  <["get_public_info" := "public:read"]>
    (<["get_confidential_info" := "confidential:read"]> ∅).

End tools.

(** ** src/auth.py *)

Module auth.
Import config.

(** [class AuthError(Exception)], with its default [status_code]. *)
Record AuthError := {
  message : string;
  status_code : Z
}.

Definition mkAuthError (msg : string) : AuthError :=
  {| message := msg; status_code := 401 |}.

(** [@dataclass(frozen=True) class TokenInfo].  The annotation
    [subject: str] is not enforced by Python: the field holds whatever
    [payload.get("sub", "")] returned. *)
Record TokenInfo := {
  subject : pyval;
  scopes : list string
}.

Inductive result (E A : Type) : Type :=
  | Ok (a : A)
  | Err (e : E).
Arguments Ok {E A} a.
Arguments Err {E A} e.

(** What a call of [jwt.decode] does: it returns the payload, or raises
    [ExpiredSignatureError], or raises another [InvalidTokenError]; the
    string is [str(e)]. *)
Inductive JwtError : Type :=
  | ExpiredSignatureError (text : string)
  | InvalidTokenError (text : string).

Definition Payload := gmap string pyval.

(** [jwt.decode(token, key, algorithms=..., options={"require": ...})]
    evaluated at time [now]. *)
Definition JwtDecode : Type :=
  Z -> string -> string -> list string -> list string -> result JwtError Payload.

Section Validator.

Variable jwt_decode : JwtDecode.
Variable cfg : Settings.
Variable now : Z.

(** Step 4 of [validate_token]: the claims of a verified payload. *)
Definition extract_claims (payload : Payload) : result AuthError TokenInfo :=
  let subject := default (PStr "") (payload !! "sub") in
  let scopes_claim := default (PList []) (payload !! "scope") in
  match scopes_claim with
  | PList items =>
      if negb (forallb isinstance_str items)
      then Err (mkAuthError "Invalid scope claim: all entries must be strings")
      else Ok {| subject := subject; scopes := map str_of items |}
  | _ => Err (mkAuthError "Invalid scope claim: must be a list")
  end.

(** Step 3 of [validate_token]: decode and verify. *)
Definition decode_token (token : string) : result AuthError Payload :=
  match jwt_decode now token (jwt_secret_key cfg) [jwt_algorithm cfg]
                   ["exp"; "sub"] with
  | Ok payload => Ok payload
  | Err (ExpiredSignatureError _) => Err (mkAuthError "Token has expired")
  | Err (InvalidTokenError e) => Err (mkAuthError ("Invalid token: " +:+ e))
  end.

Definition validate_token (authorization_header : option string)
  : result AuthError TokenInfo :=
  if negb (truthy authorization_header)
  then Err (mkAuthError "Missing Authorization header")
  else
    let parts := split_space_1 (default "" authorization_header) in
    match parts with
    | [scheme; token] =>
        if negb (bool_decide (lower scheme = "bearer"))
        then Err (mkAuthError
               "Invalid Authorization header format, expected 'Bearer <token>'")
        else
          match decode_token token with
          | Err e => Err e
          | Ok payload => extract_claims payload
          end
    | _ => Err (mkAuthError
             "Invalid Authorization header format, expected 'Bearer <token>'")
    end.

End Validator.

End auth.

(** ** src/server.py *)

Module server.
Import config auth.

(** [logging] levels used by the middleware. *)
Inductive Level : Type := INFO | WARNING.

(** One call of [logger.info] / [logger.warning]: the message and the
    [extra={"auth_data": ...}] dictionary, keys in source order. *)
Record LogRecord := {
  level : Level;
  text : string;
  auth_data : list (string * pyval)
}.

(** What a hook does besides returning: it logs, and it may invoke
    [call_next].  [Called effects] records one invocation of
    [call_next(context)], with the records the downstream stage logged. *)
Inductive Event : Type :=
  | Logged (r : LogRecord)
  | Called (effects : list LogRecord).

(** The exceptions that leave a hook. *)
Inductive Exn : Type :=
  | ExAuthError (e : AuthError)
  | ExPermissionError (msg : string)
  | ExOther (cls msg : string).

Inductive Outcome (A : Type) : Type :=
  | Return (a : A)
  | Raise (e : Exn).
Arguments Return {A} a.
Arguments Raise {A} e.

(** Computations that emit events and then return or raise. *)
Definition M (A : Type) : Type := list Event * Outcome A.

Definition ret {A} (a : A) : M A := ([], Return a).

Definition raise {A} (e : Exn) : M A := ([], Raise e).

Definition bind {A B} (m : M A) (k : A -> M B) : M B :=
  match m with
  | (evs, Return a) => let '(evs', out) := k a in ((evs ++ evs')%list, out)
  | (evs, Raise e) => (evs, Raise e)
  end.

#[export] Instance M_ret : MRet M := @ret.
#[export] Instance M_bind : MBind M := fun A B k m => bind m k.

Definition log_info (msg : string) (data : list (string * pyval)) : M unit :=
  ([Logged {| level := INFO; text := msg; auth_data := data |}], Return tt).

Definition log_warning (msg : string) (data : list (string * pyval)) : M unit :=
  ([Logged {| level := WARNING; text := msg; auth_data := data |}], Return tt).

(** The downstream stage handed to a hook: what it logs and how it ends. *)
Definition CallNext (T R : Type) : Type := T -> list LogRecord * Outcome R.

(** [await call_next(context)] *)
Definition invoke {T R} (call_next : CallNext T R) (context : T) : M R :=
  let '(effects, out) := call_next context in ([Called effects], out).

(** [starlette.requests.Request], reduced to its headers (names in lower
    case, as Starlette looks them up). *)
Record Request := {
  headers : gmap string string
}.

(** [fastmcp.tools.tool.Tool], reduced to the fields a listing shows. *)
Record Tool := {
  name : string;
  description : string
}.

(** [MiddlewareContext[CallToolRequestParams]]: [context.message.name] and
    [context.message.arguments]. *)
Record CallToolContext := {
  message_name : string;
  message_arguments : list (string * pyval)
}.

(** [MiddlewareContext[ListToolsRequest]] carries nothing the hook reads. *)
Definition ListToolsContext : Type := unit.

Definition pylist_of (l : list string) : pyval := PList (map PStr l).

Section AuthMiddleware.

Variable jwt_decode : JwtDecode.
Variable cfg : Settings.
(** [TOOL_SCOPE_MAP] as imported from [src.tools]. *)
Variable scope_map : gmap string string.

(** The ambient state of one request: the clock, the HTTP request that
    [get_http_request()] finds ([None] when it raises [RuntimeError]),
    and the value of [str(uuid.uuid4())[:8]]. *)
Variable now : Z.
Variable http_request : option Request.
Variable request_id : string.

Definition _get_auth_header : option string :=
  match http_request with
  | Some request => headers request !! "authorization"
  | None => None
  end.

Definition _authenticate : M TokenInfo :=
  let auth_header := _get_auth_header in
  match validate_token jwt_decode cfg now auth_header with
  | Ok token_info =>
      log_info "Authentication successful"
        [("request_id", PStr request_id);
         ("subject", subject token_info);
         ("scopes", pylist_of (scopes token_info));
         ("decision", PStr "authenticated")] ;;
      ret token_info
  | Err e =>
      log_warning "Authentication failed"
        [("request_id", PStr request_id);
         ("decision", PStr "rejected");
         ("reason", PStr "authentication_failed")] ;;
      raise (ExAuthError e)
  end.

(** The loop of [on_list_tools]: [authorized_tools] grows by [append]. *)
Fixpoint filter_tools (token_scopes : list string) (all_tools : list Tool)
    (authorized_tools : list Tool) : list Tool :=
  match all_tools with
  | [] => authorized_tools
  | tool :: rest =>
      let required_scope := scope_map !! name tool in
      if truthy required_scope
         && bool_decide (default "" required_scope ∈ token_scopes)
      then filter_tools token_scopes rest (authorized_tools ++ [tool])%list
      else filter_tools token_scopes rest authorized_tools
  end.

Definition on_list_tools (context : ListToolsContext)
    (call_next : CallNext ListToolsContext (list Tool)) : M (list Tool) :=
  token_info ← _authenticate ;
  all_tools ← invoke call_next context ;
  let authorized_tools := filter_tools (scopes token_info) all_tools [] in
  log_info "Tool list filtered by scope"
    [("request_id", PStr request_id);
     ("subject", subject token_info);
     ("scopes", pylist_of (scopes token_info));
     ("total_tools", PInt (Z.of_nat (length all_tools)));
     ("authorized_tools", pylist_of (map name authorized_tools));
     ("decision", PStr "filtered")] ;;
  ret authorized_tools.

Definition on_call_tool {R : Type} (context : CallToolContext)
    (call_next : CallNext CallToolContext R) : M R :=
  let tool_name := message_name context in
  token_info ← _authenticate ;
  match scope_map !! tool_name with
  | None =>
      log_warning "Tool call denied: no scope mapping found"
        [("request_id", PStr request_id);
         ("subject", subject token_info);
         ("tool", PStr tool_name);
         ("decision", PStr "denied");
         ("reason", PStr "no_scope_mapping")] ;;
      raise (ExPermissionError
               ("Access denied: tool '" +:+ tool_name
                +:+ "' has no scope mapping"))
  | Some required_scope =>
      if negb (bool_decide (required_scope ∈ scopes token_info))
      then
        log_warning "Tool call denied: insufficient scope"
          [("request_id", PStr request_id);
           ("subject", subject token_info);
           ("tool", PStr tool_name);
           ("required_scope", PStr required_scope);
           ("token_scopes", pylist_of (scopes token_info));
           ("decision", PStr "denied");
           ("reason", PStr "insufficient_scope")] ;;
        raise (ExPermissionError
                 ("Access denied: tool '" +:+ tool_name
                  +:+ "' requires scope '" +:+ required_scope +:+ "'"))
      else
        log_info "Tool call authorized"
          [("request_id", PStr request_id);
           ("subject", subject token_info);
           ("tool", PStr tool_name);
           ("required_scope", PStr required_scope);
           ("decision", PStr "allowed")] ;;
        invoke call_next context
  end.

End AuthMiddleware.

(** Whether a run invoked [call_next]. *)
Definition called {A} (run : M A) : bool :=
  existsb (fun ev => match ev with Called _ => true | Logged _ => false end)
          (fst run).

End server.

(** ** A symbolic stand-in for PyJWT

    Witnesses need a decoder to run.  [SymbolicJwt.decode] treats a token as
    an opaque name for what was signed (algorithm, key, claims) and performs
    the checks of [jwt.decode] on it, in PyJWT's order: structure,
    algorithm, signature, required claims, expiry, subject type. *)

Module SymbolicJwt.
Import auth.

Record Issued := {
  signed_alg : string;
  signed_key : string;
  claims : Payload
}.

Definition dq : string := String (ascii_of_nat 34) EmptyString.

Definition missing_claim (require : list string) (p : Payload) : option string :=
  find (fun c => negb (bool_decide (is_Some (p !! c)))) require.

Definition decode (tokens : gmap string Issued) : JwtDecode :=
  fun now token key algorithms require =>
    match tokens !! token with
    | None => Err (InvalidTokenError "Not enough segments")
    | Some t =>
        if negb (bool_decide (signed_alg t ∈ algorithms))
        then Err (InvalidTokenError "The specified alg value is not allowed")
        else if negb (bool_decide (signed_key t = key))
        then Err (InvalidTokenError "Signature verification failed")
        else
          match missing_claim require (claims t) with
          | Some c =>
              Err (InvalidTokenError
                     ("Token is missing the " +:+ dq +:+ c +:+ dq +:+ " claim"))
          | None =>
              match claims t !! "exp" with
              | Some (PInt exp) =>
                  if exp <=? now
                  then Err (ExpiredSignatureError "Signature has expired")
                  else
                    match claims t !! "sub" with
                    | Some (PStr _) | None => Ok (claims t)
                    | Some _ => Err (InvalidTokenError "Subject must be a string")
                    end
              | Some _ =>
                  Err (InvalidTokenError
                         "Expiration Time claim (exp) must be an integer")
              | None =>
                  match claims t !! "sub" with
                  | Some (PStr _) | None => Ok (claims t)
                  | Some _ => Err (InvalidTokenError "Subject must be a string")
                  end
              end
          end
    end.

(** Tokens in the manner of [tests/conftest.py]'s [make_token]. *)
Definition make_token (sub : option pyval) (scope : option pyval)
    (exp : option Z) (secret : string) : Issued :=
  {| signed_alg := "HS256";
     signed_key := secret;
     claims :=
       let p0 : Payload := {["iat" := PInt 0]} in
       let p1 := match sub with Some v => <["sub" := v]> p0 | None => p0 end in
       let p2 := match scope with Some v => <["scope" := v]> p1 | None => p1 end in
       match exp with Some e => <["exp" := PInt e]> p2 | None => p2 end |}.

Definition test_secret : string := "dev-secret-change-me".

Definition sample_tokens : gmap string Issued :=
  list_to_map
    [("alice.jwt", make_token (Some (PStr "alice"))
                     (Some (PList [PStr "public:read"])) (Some 3600) test_secret);
     ("bob.jwt", make_token (Some (PStr "bob"))
                   (Some (PList [PStr "public:read"; PStr "confidential:read"]))
                   (Some 3600) test_secret);
     ("dave.jwt", make_token (Some (PStr "dave")) None (Some 3600) test_secret);
     ("erin.jwt", make_token (Some (PStr "erin")) (Some (PList [PStr ""]))
                    (Some 3600) test_secret);
     ("expired.jwt", make_token (Some (PStr "alice"))
                       (Some (PList [PStr "public:read"])) (Some 0) test_secret);
     ("forged.jwt", make_token (Some (PStr "attacker"))
                      (Some (PList [PStr "confidential:read"])) (Some 3600)
                      "wrong-secret");
     ("noexp.jwt", make_token (Some (PStr "alice"))
                     (Some (PList [PStr "public:read"])) None test_secret);
     ("nosub.jwt", make_token None (Some (PList [PStr "public:read"]))
                     (Some 3600) test_secret);
     ("strscope.jwt", make_token (Some (PStr "alice"))
                        (Some (PStr "public:read")) (Some 3600) test_secret);
     ("mixed.jwt", make_token (Some (PStr "alice"))
                     (Some (PList [PStr "public:read"; PInt 123])) (Some 3600)
                     test_secret);
     ("carol.jwt sig=", make_token (Some (PStr "carol"))
                          (Some (PList [PStr "public:read"])) (Some 3600)
                          test_secret)].

End SymbolicJwt.

Import config tools auth server.

(** ** What the repository relies on PyJWT for

    [validate_token] asks [jwt.decode] to require the [exp] and [sub] claims
    and does not look at the type of [sub] itself: PyJWT rejects a [sub]
    that is not a string ([InvalidSubjectError], a subclass of
    [InvalidTokenError]). *)

Record PyJwtContract (jwt_decode : JwtDecode) : Prop := {
  require_honoured :
    ∀ now token key algorithms require payload,
      jwt_decode now token key algorithms require = Ok payload →
      ∀ c, c ∈ require → is_Some (payload !! c);
  sub_is_str :
    ∀ now token key algorithms require payload v,
      jwt_decode now token key algorithms require = Ok payload →
      payload !! "sub" = Some v → isinstance_str v = true
}.

(** ** Vocabulary of the specification *)

(** Python's whitespace, as [str.split()] understands it on ASCII text. *)
Definition is_whitespace (c : ascii) : bool :=
  let n := N_of_ascii c in
  ((n =? 32) || ((9 <=? n) && (n <=? 13)) || ((28 <=? n) && (n <=? 31)))%N.

(** The whitespace-separated tokens of a header: [h.split()]. *)
Fixpoint whitespace_tokens_from (s : string) (current : string) : list string :=
  match s with
  | EmptyString =>
      match current with EmptyString => [] | _ => [current] end
  | String c rest =>
      if is_whitespace c
      then match current with
           | EmptyString => whitespace_tokens_from rest EmptyString
           | _ => current :: whitespace_tokens_from rest EmptyString
           end
      else whitespace_tokens_from rest (current +:+ String c EmptyString)
  end.

Definition whitespace_tokens (s : string) : list string :=
  whitespace_tokens_from s EmptyString.

(** "Exactly two whitespace-separated tokens whose first token equals
    Bearer case-insensitively". *)
Definition two_tokens_bearer (h : string) : Prop :=
  ∃ scheme token,
    whitespace_tokens h = [scheme; token] ∧ lower scheme = "bearer".

(** The condition the invoke hook is specified to enforce. *)
Definition authorized_call (r : result AuthError TokenInfo)
    (scope_map : gmap string string) (tool_name : string) : Prop :=
  ∃ token_info required_scope,
    r = Ok token_info ∧
    scope_map !! tool_name = Some required_scope ∧
    required_scope ∈ scopes token_info.

(** The condition the list hook is specified to enforce on one tool. *)
Definition authorized_listing (token_info : TokenInfo)
    (scope_map : gmap string string) (tool : Tool) : Prop :=
  ∃ required_scope,
    scope_map !! name tool = Some required_scope ∧
    required_scope ∈ scopes token_info.

(** The errors by which a hook refuses a request: the validator's
    [AuthError] or the gate's [PermissionError]. *)
Definition is_refusal (e : Exn) : Prop :=
  match e with
  | ExAuthError _ | ExPermissionError _ => True
  | ExOther _ _ => False
  end.

(** The allow/deny result of one run of the invoke hook: [None] when the
    call went through to [call_next], otherwise the error that stopped it. *)
Definition decision {A} (run : M A) : option Exn :=
  if called run then None
  else match snd run with Raise e => Some e | Return _ => None end.

(** The test in the body of the list hook's loop. *)
Definition visible (scope_map : gmap string string) (token_scopes : list string)
    (tool : Tool) : bool :=
  truthy (scope_map !! name tool)
  && bool_decide (default "" (scope_map !! name tool) ∈ token_scopes).

(** A registry that also lists a tool whose required scope is the empty
    string. *)
Definition registry_with_blank : gmap string string :=
  <["get_debug_info" := ""]> TOOL_SCOPE_MAP.

Definition debug_tool : Tool :=
  {| name := "get_debug_info"; description := "Dump internal state." |}.

(** "A single [AuthError] with the one message": one text serves every
    token whose decode-and-verify step fails. *)
Definition one_message_for_all_failures (jwt_decode : JwtDecode)
    (cfg : Settings) (now : Z) : Prop :=
  ∃ msg,
    ∀ token e,
      jwt_decode now token (jwt_secret_key cfg) [jwt_algorithm cfg]
                 ["exp"; "sub"] = Err e →
      validate_token jwt_decode cfg now (Some ("Bearer " +:+ token))
        = Err (mkAuthError msg).

(** "Every non-empty header that is not exactly two whitespace-separated
    tokens whose first token is Bearer is refused." *)
Definition refuses_all_but_two_tokens_bearer (jwt_decode : JwtDecode)
    (cfg : Settings) (now : Z) : Prop :=
  ∀ h, h ≠ "" → ¬ two_tokens_bearer h →
       ∃ e, validate_token jwt_decode cfg now (Some h) = Err e.

(** ** Sample requests *)

Definition request_with (header : string) : option Request :=
  Some {| headers := {["authorization" := header]} |}.

Definition sample_decode : JwtDecode :=
  SymbolicJwt.decode SymbolicJwt.sample_tokens.

Definition call_of (tool_name : string) : CallToolContext :=
  {| message_name := tool_name; message_arguments := [] |}.

(** A downstream stage that returns the tool's name as its document. *)
Definition echo_tool : CallNext CallToolContext string :=
  fun context =>
    ([{| level := INFO;
         text := "Tool executed: " +:+ message_name context;
         auth_data := [] |}],
     Return ("contents of " +:+ message_name context)).

Definition catalog : list Tool :=
  [{| name := "get_public_info";
      description := "Retrieve public company information document." |};
   {| name := "get_confidential_info";
      description := "Retrieve confidential company strategy document." |}].

Definition list_catalog : CallNext ListToolsContext (list Tool) :=
  fun _ => ([], Return catalog).

(** ** src/server.py: the log formatter

    [JSONLogFormatter.format] builds a dictionary and hands it to
    [json.dumps].  A Python [dict] keeps insertion order and [update]
    overwrites the value of a key it already has, in place.
    [logging.Formatter.formatTime] and [json.dumps] are the standard
    library's and stay parameters. *)

Module logfmt.

Definition PyDict : Type := list (string * pyval).

(** [d.get(k)] *)
Fixpoint dict_get (d : PyDict) (k : string) : option pyval :=
  match d with
  | [] => None
  | (k', v') :: rest => if bool_decide (k' = k) then Some v' else dict_get rest k
  end.

(** [d[k] = v] *)
Fixpoint dict_set (d : PyDict) (k : string) (v : pyval) : PyDict :=
  match d with
  | [] => [(k, v)]
  | (k', v') :: rest =>
      if bool_decide (k' = k) then (k', v) :: rest
      else (k', v') :: dict_set rest k v
  end.

(** [d.update(other)] *)
Definition dict_update (d other : PyDict) : PyDict :=
  foldl (fun acc kv => dict_set acc kv.1 kv.2) d other.

(** The attributes of [logging.LogRecord] that the formatter reads;
    [rec_auth_data] is [None] when the record has no [auth_data]
    attribute. *)
Record PyLogRecord := {
  rec_name : string;
  rec_levelname : string;
  rec_message : string;
  rec_created : Z;
  rec_auth_data : option PyDict
}.

Section JSONLogFormatter.

Variable formatTime : PyLogRecord -> string.
Variable json_dumps : PyDict -> string.

(** The dictionary [format] serialises. *)
Definition log_entry (record : PyLogRecord) : PyDict :=
  let log_entry :=
    [("timestamp", PStr (formatTime record));
     ("level", PStr (rec_levelname record));
     ("logger", PStr (rec_name record));
     ("message", PStr (rec_message record))] in
  match rec_auth_data record with
  | Some auth_data => dict_update log_entry auth_data
  | None => log_entry
  end.

Definition format (record : PyLogRecord) : string :=
  json_dumps (log_entry record).

End JSONLogFormatter.

Definition levelname_of (l : Level) : string :=
  match l with INFO => "INFO" | WARNING => "WARNING" end.

(** The record that [logging] creates when the middleware calls
    [logger.info(msg, extra={"auth_data": data})] on
    [logging.getLogger("mcp-server")] at time [created]. *)
Definition emitted (created : Z) (r : LogRecord) : PyLogRecord :=
  {| rec_name := "mcp-server";
     rec_levelname := levelname_of (level r);
     rec_message := text r;
     rec_created := created;
     rec_auth_data := Some (auth_data r) |}.

End logfmt.

(** ** src/server.py: the tools and the probes

    The documents directory is a finite map from paths to the text of the
    regular files found there; a path is its list of components. *)

Module documents.

Definition Path : Type := list string.

Definition FileSystem : Type := gmap (list string) string.

(** [logger.info(msg)] and [logger.error(fmt, path)] of the tool bodies. *)
Inductive ToolLog : Type :=
  | LogInfo (msg : string)
  | LogError (fmt : string) (arg : Path).

(** [starlette.responses.JSONResponse] *)
Record JSONResponse := {
  content : list (string * pyval);
  status_code : Z
}.

Section Tools.

(** [settings.documents_dir] *)
Variable documents_dir : Path.
Variable fs : FileSystem.

Definition get_public_info : list ToolLog * string :=
  let doc_path := (documents_dir ++ ["public.md"])%list in
  match fs !! doc_path with
  | None =>
      ([LogInfo "Tool executed: get_public_info";
        LogError "Public document not found at %s" doc_path],
       "Error: public document not found.")
  | Some document => ([LogInfo "Tool executed: get_public_info"], document)
  end.

Definition get_confidential_info : list ToolLog * string :=
  let doc_path := (documents_dir ++ ["confidential.md"])%list in
  match fs !! doc_path with
  | None =>
      ([LogInfo "Tool executed: get_confidential_info";
        LogError "Confidential document not found at %s" doc_path],
       "Error: confidential document not found.")
  | Some document =>
      ([LogInfo "Tool executed: get_confidential_info"], document)
  end.

Definition health_check : JSONResponse :=
  {| content := [("status", PStr "healthy")]; status_code := 200 |}.

Definition readiness_check : JSONResponse :=
  let public_doc := (documents_dir ++ ["public.md"])%list in
  let confidential_doc := (documents_dir ++ ["confidential.md"])%list in
  if negb (bool_decide (is_Some (fs !! public_doc)))
     || negb (bool_decide (is_Some (fs !! confidential_doc)))
  then {| content := [("status", PStr "not_ready");
                      ("reason", PStr "document files missing")];
          status_code := 503 |}
  else {| content := [("status", PStr "ready")]; status_code := 200 |}.

End Tools.

(** Whether a tool body logged at level ERROR. *)
Definition logged_error (logs : list ToolLog) : bool :=
  existsb (fun l => match l with LogError _ _ => true | LogInfo _ => false end)
          logs.

End documents.

(** ** Reading the audit trail *)

(** The value of one field of a record's [auth_data]. *)
Definition auth_field (r : LogRecord) (key : string) : option pyval :=
  logfmt.dict_get (auth_data r) key.

(** The records a run logged, in order. *)
Definition logged {A} (run : M A) : list LogRecord :=
  omap (fun ev => match ev with Logged r => Some r | Called _ => None end)
       (fst run).

(** How often a run invoked [call_next]. *)
Definition calls {A} (run : M A) : nat :=
  length (List.filter
            (fun ev => match ev with Called _ => true | Logged _ => false end)
            (fst run)).

(** The sample tokens and one whose scopes are those of [bob.jwt] in
    another order, one of them twice. *)
Definition more_decode : JwtDecode :=
  SymbolicJwt.decode
    (<["frank.jwt" :=
         SymbolicJwt.make_token (Some (PStr "frank"))
           (Some (PList [PStr "confidential:read"; PStr "public:read";
                         PStr "confidential:read"]))
           (Some 3600) SymbolicJwt.test_secret]>
       SymbolicJwt.sample_tokens).

(** * Properties *)

(** ** Strings and headers *)

Lemma truthy_Some (s : string) : truthy (Some s) = true ↔ s ≠ "".
Proof. destruct s; simpl; split; congruence. Qed.

Lemma truthy_false (o : option string) :
  truthy o = false ↔ o = None ∨ o = Some "".
Proof.
  destruct o as [[|c s]|]; simpl; split; intros H; auto; try discriminate.
  - destruct H as [H|H]; discriminate.
Qed.

(** A header that starts with a scheme free of spaces, then one space. *)
Lemma cut_at_space_app (scheme token : string) :
  cut_at_space scheme = None →
  cut_at_space (scheme +:+ " " +:+ token) = Some (scheme, token).
Proof.
  induction scheme as [|c scheme IH]; simpl; [done|].
  destruct (Ascii.eqb c " ") eqn:Hc; [done|].
  destruct (cut_at_space scheme) as [[b a]|] eqn:Hcut; [done|].
  intros _. by rewrite IH.
Qed.

(** Conversely, a cut recovers the header. *)
Lemma cut_at_space_Some (h scheme token : string) :
  cut_at_space h = Some (scheme, token) →
  h = scheme +:+ " " +:+ token ∧ cut_at_space scheme = None.
Proof.
  revert scheme. induction h as [|c h IH]; simpl; intros scheme; [done|].
  destruct (Ascii.eqb c " ") eqn:Hc.
  - apply Ascii.eqb_eq in Hc as ->. intros [= <- <-]. done.
  - destruct (cut_at_space h) as [[b a]|] eqn:Hcut; [|done].
    intros [= <- <-]. destruct (IH b eq_refl) as [-> Hb].
    simpl. by rewrite Hc, Hb.
Qed.

Lemma split_space_1_length (h : string) :
  length (split_space_1 h) = 1%nat ∨ length (split_space_1 h) = 2%nat.
Proof. unfold split_space_1. destruct (cut_at_space h) as [[??]|]; auto. Qed.

Lemma split_space_1_two (h scheme token : string) :
  split_space_1 h = [scheme; token] ↔ cut_at_space h = Some (scheme, token).
Proof.
  unfold split_space_1. destruct (cut_at_space h) as [[b a]|]; split;
    intros H; by simplify_eq.
Qed.

(** ** The validator, step by step *)

Section ValidatorFacts.

Variable jwt_decode : JwtDecode.
Variable cfg : Settings.
Variable now : Z.

Local Abbreviation validate := (validate_token jwt_decode cfg now).
Local Abbreviation decode := (decode_token jwt_decode cfg now).

Lemma validate_token_missing (h : option string) :
  truthy h = false →
  validate h = Err (mkAuthError "Missing Authorization header").
Proof. unfold validate_token. by intros ->. Qed.

Lemma validate_token_bearer (h scheme token : string) :
  split_space_1 h = [scheme; token] →
  lower scheme = "bearer" →
  validate (Some h) =
    match decode token with
    | Err e => Err e
    | Ok payload => extract_claims payload
    end.
Proof.
  intros Hsplit Hscheme. unfold validate_token.
  assert (h ≠ "") as Hne.
  { intros ->. discriminate Hsplit. }
  apply truthy_Some in Hne. rewrite Hne. simpl.
  rewrite Hsplit, bool_decide_true by done. done.
Qed.

Lemma validate_token_malformed (h : string) :
  h ≠ "" →
  (∀ scheme token,
      split_space_1 h = [scheme; token] → lower scheme ≠ "bearer") →
  validate (Some h) =
    Err (mkAuthError
           "Invalid Authorization header format, expected 'Bearer <token>'").
Proof.
  intros Hne Hbad. unfold validate_token.
  apply truthy_Some in Hne. rewrite Hne. simpl.
  unfold split_space_1 in *.
  destruct (cut_at_space h) as [[scheme token]|]; [|done].
  rewrite bool_decide_false; [done|]. by apply (Hbad scheme token).
Qed.

(** Whatever [validate_token] returns went through every step. *)
Lemma validate_token_Ok_inv (h : option string) (ti : TokenInfo) :
  validate h = Ok ti →
  ∃ header scheme token payload,
    h = Some header ∧ header = scheme +:+ " " +:+ token ∧
    cut_at_space scheme = None ∧ lower scheme = "bearer" ∧
    jwt_decode now token (jwt_secret_key cfg) [jwt_algorithm cfg]
               ["exp"; "sub"] = Ok payload ∧
    extract_claims payload = Ok ti.
Proof.
  unfold validate_token. destruct (truthy h) eqn:Hh; simpl; [|done].
  destruct h as [header|]; [|done]. simpl.
  unfold split_space_1.
  destruct (cut_at_space header) as [[scheme token]|] eqn:Hcut; [|done].
  case_bool_decide as Hscheme; simpl; [|done].
  unfold decode_token.
  destruct (jwt_decode _ _ _ _ _) as [payload|[e|e]] eqn:Hdec; [|done..].
  intros Hclaims. apply cut_at_space_Some in Hcut as [-> Hs].
  by exists (scheme +:+ " " +:+ token), scheme, token, payload.
Qed.

Lemma extract_claims_Ok_inv (payload : Payload) (ti : TokenInfo) :
  extract_claims payload = Ok ti →
  subject ti = default (PStr "") (payload !! "sub") ∧
  ∃ items, default (PList []) (payload !! "scope") = PList items ∧
           forallb isinstance_str items = true ∧
           scopes ti = map str_of items.
Proof.
  unfold extract_claims.
  destruct (default (PList []) (payload !! "scope")) as [| | | | |items|];
    try done.
  destruct (forallb isinstance_str items) eqn:Hall; simpl; [|done].
  intros [= <-]. simpl. split; [done|]. by exists items.
Qed.

End ValidatorFacts.

(** ** The middleware, step by step *)

Section MiddlewareFacts.

Variable jwt_decode : JwtDecode.
Variable cfg : Settings.
Variable scope_map : gmap string string.
Variable now : Z.
Variable http_request : option Request.

Local Abbreviation credential :=
  (validate_token jwt_decode cfg now (_get_auth_header http_request)).

Lemma _authenticate_Ok (request_id : string) (ti : TokenInfo) :
  credential = Ok ti →
  snd (_authenticate jwt_decode cfg now http_request request_id) = Return ti ∧
  called (_authenticate jwt_decode cfg now http_request request_id) = false.
Proof. unfold _authenticate. by intros ->. Qed.

Lemma _authenticate_Err (request_id : string) (e : AuthError) :
  credential = Err e →
  snd (_authenticate jwt_decode cfg now http_request request_id)
    = Raise (ExAuthError e) ∧
  called (_authenticate jwt_decode cfg now http_request request_id) = false.
Proof. unfold _authenticate. by intros ->. Qed.

(** The three ways [on_call_tool] ends once the caller is authenticated,
    and the one way it ends otherwise. *)
Lemma on_call_tool_rejected {R} (request_id : string) (e : AuthError)
    (context : CallToolContext) (call_next : CallNext CallToolContext R) :
  credential = Err e →
  let run := on_call_tool jwt_decode cfg scope_map now http_request
               request_id context call_next in
  snd run = Raise (ExAuthError e) ∧ called run = false.
Proof.
  intros Hcred. unfold on_call_tool, _authenticate. rewrite Hcred. done.
Qed.

Lemma on_call_tool_no_mapping {R} (request_id : string) (ti : TokenInfo)
    (context : CallToolContext) (call_next : CallNext CallToolContext R) :
  credential = Ok ti →
  scope_map !! message_name context = None →
  let run := on_call_tool jwt_decode cfg scope_map now http_request
               request_id context call_next in
  snd run = Raise (ExPermissionError
                     ("Access denied: tool '" +:+ message_name context
                      +:+ "' has no scope mapping")) ∧
  called run = false.
Proof.
  intros Hcred Hmap. unfold on_call_tool, _authenticate.
  rewrite Hcred. simpl. rewrite Hmap. done.
Qed.

Lemma on_call_tool_insufficient {R} (request_id : string) (ti : TokenInfo)
    (required_scope : string)
    (context : CallToolContext) (call_next : CallNext CallToolContext R) :
  credential = Ok ti →
  scope_map !! message_name context = Some required_scope →
  required_scope ∉ scopes ti →
  let run := on_call_tool jwt_decode cfg scope_map now http_request
               request_id context call_next in
  snd run = Raise (ExPermissionError
                     ("Access denied: tool '" +:+ message_name context
                      +:+ "' requires scope '" +:+ required_scope +:+ "'")) ∧
  called run = false.
Proof.
  intros Hcred Hmap Hscope. unfold on_call_tool, _authenticate.
  rewrite Hcred. simpl. rewrite Hmap.
  rewrite bool_decide_false by done. done.
Qed.

Lemma on_call_tool_allowed {R} (request_id : string) (ti : TokenInfo)
    (required_scope : string)
    (context : CallToolContext) (call_next : CallNext CallToolContext R) :
  credential = Ok ti →
  scope_map !! message_name context = Some required_scope →
  required_scope ∈ scopes ti →
  let run := on_call_tool jwt_decode cfg scope_map now http_request
               request_id context call_next in
  snd run = snd (call_next context) ∧ called run = true.
Proof.
  intros Hcred Hmap Hscope. unfold on_call_tool, _authenticate.
  rewrite Hcred. simpl. rewrite Hmap.
  rewrite bool_decide_true by done. simpl.
  unfold invoke. destruct (call_next context) as [effects out]. done.
Qed.

End MiddlewareFacts.

(** ** The invoke-operation gate *)

(** Closes a goal whose premise claims an authorization that the context
    rules out. *)
Local Ltac refuted :=
  first [ discriminate
        | intros (? & ? & ? & ? & ?); simplify_eq; done ].

(** C1. The invoke hook calls [call_next] exactly when the credential
    validates, the tool has an entry in the scope registry and that scope is
    among the granted scopes; it then returns what [call_next] produced,
    unchanged.  In every other case it raises an authentication or
    permission error and [call_next] is not invoked. *)
Theorem on_call_tool_calls_next_iff_authorized {R : Type}
    (jwt_decode : JwtDecode) (cfg : Settings) (scope_map : gmap string string)
    (now : Z) (http_request : option Request) (request_id : string)
    (context : CallToolContext) (call_next : CallNext CallToolContext R) :
  let run := on_call_tool jwt_decode cfg scope_map now http_request
               request_id context call_next in
  let ok := authorized_call
              (validate_token jwt_decode cfg now (_get_auth_header http_request))
              scope_map (message_name context) in
  (called run = true ↔ ok) ∧
  (ok → snd run = snd (call_next context)) ∧
  (¬ ok → called run = false ∧ ∃ e, snd run = Raise e ∧ is_refusal e).
Proof.
  intros run ok. subst run ok. unfold authorized_call.
  destruct (validate_token jwt_decode cfg now (_get_auth_header http_request))
    as [ti|err] eqn:Hcred.
  - destruct (scope_map !! message_name context) as [required|] eqn:Hmap.
    + destruct (decide (required ∈ scopes ti)) as [Hin|Hnotin].
      * destruct (on_call_tool_allowed jwt_decode cfg scope_map now http_request
                    request_id ti required context call_next Hcred Hmap Hin)
          as [Hout Hcalled].
        split_and!; [split; eauto | done | intros []; eauto].
      * destruct (on_call_tool_insufficient jwt_decode cfg scope_map now
                    http_request request_id ti required context call_next
                    Hcred Hmap Hnotin) as [Hout Hcalled].
        rewrite Hcalled, Hout. split_and!; [split|..]; try refuted.
        intros _. split; [done|]. by eexists.
    + destruct (on_call_tool_no_mapping jwt_decode cfg scope_map now
                  http_request request_id ti context call_next Hcred Hmap)
        as [Hout Hcalled].
      rewrite Hcalled, Hout. split_and!; [split|..]; try refuted.
      intros _. split; [done|]. by eexists.
  - destruct (on_call_tool_rejected jwt_decode cfg scope_map now http_request
                request_id err context call_next Hcred) as [Hout Hcalled].
    rewrite Hcalled, Hout. split_and!; [split|..]; try refuted.
    intros _. split; [done|]. by eexists.
Qed.

(** C3. A tool without an entry in the scope registry cannot be called by
    any authenticated caller, whatever scopes the credential grants: the
    hook raises the permission error that names the tool and [call_next] is
    not invoked. *)
Theorem on_call_tool_unmapped_always_denied {R : Type}
    (jwt_decode : JwtDecode) (cfg : Settings) (scope_map : gmap string string)
    (now : Z) (http_request : option Request) (request_id : string)
    (context : CallToolContext) (call_next : CallNext CallToolContext R)
    (token_info : TokenInfo) :
  validate_token jwt_decode cfg now (_get_auth_header http_request)
    = Ok token_info →
  scope_map !! message_name context = None →
  let run := on_call_tool jwt_decode cfg scope_map now http_request
               request_id context call_next in
  snd run = Raise (ExPermissionError
                     ("Access denied: tool '" +:+ message_name context
                      +:+ "' has no scope mapping")) ∧
  called run = false.
Proof. apply on_call_tool_no_mapping. Qed.

Lemma on_call_tool_calls_next_iff_authorized_witness :
  let run := on_call_tool sample_decode settings TOOL_SCOPE_MAP 1000
               (request_with "Bearer alice.jwt") "1a2b3c4d"
               (call_of "get_public_info") echo_tool in
  called run = true ∧ snd run = Return "contents of get_public_info".
Proof.
  destruct (on_call_tool_calls_next_iff_authorized sample_decode settings
              TOOL_SCOPE_MAP 1000 (request_with "Bearer alice.jwt") "1a2b3c4d"
              (call_of "get_public_info") echo_tool) as (Hiff & Hok & _).
  assert (authorized_call
            (validate_token sample_decode settings 1000
               (_get_auth_header (request_with "Bearer alice.jwt")))
            TOOL_SCOPE_MAP (message_name (call_of "get_public_info"))) as Hauth.
  { exists {| subject := PStr "alice"; scopes := ["public:read"] |}, "public:read".
    split_and!; [vm_compute; reflexivity .. | apply list_elem_of_here]. }
  split; [by apply Hiff | by rewrite (Hok Hauth)].
Defined.

Lemma on_call_tool_unmapped_always_denied_witness :
  let run := on_call_tool sample_decode settings TOOL_SCOPE_MAP 1000
               (request_with "Bearer bob.jwt") "1a2b3c4d"
               (call_of "delete_everything") echo_tool in
  validate_token sample_decode settings 1000
    (_get_auth_header (request_with "Bearer bob.jwt"))
    = Ok {| subject := PStr "bob";
            scopes := ["public:read"; "confidential:read"] |} ∧
  TOOL_SCOPE_MAP !! "delete_everything" = None ∧
  snd run = Raise (ExPermissionError
              "Access denied: tool 'delete_everything' has no scope mapping") ∧
  called run = false.
Proof.
  assert (validate_token sample_decode settings 1000
            (_get_auth_header (request_with "Bearer bob.jwt"))
          = Ok {| subject := PStr "bob";
                  scopes := ["public:read"; "confidential:read"] |}) as Hcred
    by (vm_compute; reflexivity).
  assert (TOOL_SCOPE_MAP !! message_name (call_of "delete_everything") = None)
    as Hmap by (vm_compute; reflexivity).
  split_and!; [exact Hcred | exact Hmap | ..];
    apply (on_call_tool_unmapped_always_denied sample_decode settings
             TOOL_SCOPE_MAP 1000 (request_with "Bearer bob.jwt") "1a2b3c4d"
             (call_of "delete_everything") echo_tool _ Hcred Hmap).
Defined.

(** C8. The authorization outcome is a function of the header, the process
    secret and algorithm, the scope registry and the evaluation time: two
    runs that agree on these authenticate to the same credential or the same
    error and reach the same allow/deny decision, whatever their request
    ids; if the downstream stage behaves alike in both, so does the hook. *)
Theorem authorization_outcome_deterministic {R : Type}
    (jwt_decode : JwtDecode) (cfg : Settings) (scope_map : gmap string string)
    (now : Z) (http_request : option Request) (context : CallToolContext)
    (request_id1 request_id2 : string)
    (call_next1 call_next2 : CallNext CallToolContext R) :
  let run1 := on_call_tool jwt_decode cfg scope_map now http_request
                request_id1 context call_next1 in
  let run2 := on_call_tool jwt_decode cfg scope_map now http_request
                request_id2 context call_next2 in
  snd (_authenticate jwt_decode cfg now http_request request_id1)
    = snd (_authenticate jwt_decode cfg now http_request request_id2) ∧
  decision run1 = decision run2 ∧
  (call_next1 context = call_next2 context → snd run1 = snd run2).
Proof.
  intros run1 run2. subst run1 run2. unfold decision.
  destruct (validate_token jwt_decode cfg now (_get_auth_header http_request))
    as [ti|err] eqn:Hcred.
  - destruct (_authenticate_Ok _ _ _ _ request_id1 ti Hcred) as [-> _].
    destruct (_authenticate_Ok _ _ _ _ request_id2 ti Hcred) as [-> _].
    split; [done|].
    destruct (scope_map !! message_name context) as [required|] eqn:Hmap.
    + destruct (decide (required ∈ scopes ti)) as [Hin|Hnotin].
      * destruct (on_call_tool_allowed _ _ _ _ _ request_id1 ti required
                    context call_next1 Hcred Hmap Hin) as [-> ->].
        destruct (on_call_tool_allowed _ _ _ _ _ request_id2 ti required
                    context call_next2 Hcred Hmap Hin) as [-> ->].
        split; [done | by intros ->].
      * destruct (on_call_tool_insufficient _ _ _ _ _ request_id1 ti required
                    context call_next1 Hcred Hmap Hnotin) as [-> ->].
        destruct (on_call_tool_insufficient _ _ _ _ _ request_id2 ti required
                    context call_next2 Hcred Hmap Hnotin) as [-> ->].
        done.
    + destruct (on_call_tool_no_mapping _ _ _ _ _ request_id1 ti
                  context call_next1 Hcred Hmap) as [-> ->].
      destruct (on_call_tool_no_mapping _ _ _ _ _ request_id2 ti
                  context call_next2 Hcred Hmap) as [-> ->].
      done.
  - destruct (_authenticate_Err _ _ _ _ request_id1 err Hcred) as [-> _].
    destruct (_authenticate_Err _ _ _ _ request_id2 err Hcred) as [-> _].
    destruct (on_call_tool_rejected _ _ scope_map _ _ request_id1 err
                context call_next1 Hcred) as [-> ->].
    destruct (on_call_tool_rejected _ _ scope_map _ _ request_id2 err
                context call_next2 Hcred) as [-> ->].
    done.
Qed.

(** ** The list-operations filter *)

Section FilterFacts.

Variable scope_map : gmap string string.
Variable token_scopes : list string.

Lemma filter_tools_spec (all_tools authorized_tools : list Tool) :
  filter_tools scope_map token_scopes all_tools authorized_tools
  = (authorized_tools
     ++ List.filter (visible scope_map token_scopes) all_tools)%list.
Proof.
  revert authorized_tools.
  induction all_tools as [|tool rest IH]; intros acc; simpl.
  - by rewrite app_nil_r.
  - fold (visible scope_map token_scopes tool).
    destruct (visible scope_map token_scopes tool); rewrite IH; [|done].
    by rewrite <- app_assoc.
Qed.

Lemma visible_true (tool : Tool) :
  visible scope_map token_scopes tool = true ↔
  ∃ required_scope,
    scope_map !! name tool = Some required_scope ∧
    required_scope ≠ "" ∧ required_scope ∈ token_scopes.
Proof.
  unfold visible. rewrite andb_true_iff, bool_decide_eq_true.
  destruct (scope_map !! name tool) as [required|]; simpl.
  - rewrite (truthy_Some required). split.
    + intros [Hne Hin]. by exists required.
    + intros (r & [= <-] & Hne & Hin). done.
  - split; [intros [[=] _] | intros (r & [=] & _)].
Qed.

Lemma elem_of_filter_tools (all_tools : list Tool) (tool : Tool) :
  tool ∈ filter_tools scope_map token_scopes all_tools [] ↔
  tool ∈ all_tools ∧ visible scope_map token_scopes tool = true.
Proof.
  rewrite filter_tools_spec. simpl.
  rewrite !list_elem_of_In. apply filter_In.
Qed.

Lemma filter_tools_sublist (all_tools : list Tool) :
  filter_tools scope_map token_scopes all_tools [] `sublist_of` all_tools.
Proof.
  rewrite filter_tools_spec. simpl.
  induction all_tools as [|tool rest IH]; simpl; [constructor|].
  destruct (visible scope_map token_scopes tool).
  - by apply sublist_skip.
  - by apply sublist_cons.
Qed.

End FilterFacts.

Lemma TOOL_SCOPE_MAP_no_blank (tool_name required_scope : string) :
  TOOL_SCOPE_MAP !! tool_name = Some required_scope → required_scope ≠ "".
Proof.
  unfold TOOL_SCOPE_MAP. intros H.
  apply lookup_insert_Some in H as [[_ <-]|[_ H]]; [done|].
  apply lookup_insert_Some in H as [[_ <-]|[_ H]]; [done|].
  by rewrite lookup_empty in H.
Qed.

Section ListHookFacts.

Variable jwt_decode : JwtDecode.
Variable cfg : Settings.
Variable scope_map : gmap string string.
Variable now : Z.
Variable http_request : option Request.
Variable request_id : string.
Variable context : ListToolsContext.
Variable call_next : CallNext ListToolsContext (list Tool).

Local Abbreviation credential :=
  (validate_token jwt_decode cfg now (_get_auth_header http_request)).
Local Abbreviation run :=
  (on_list_tools jwt_decode cfg scope_map now http_request request_id
     context call_next).

Lemma on_list_tools_Ok (ti : TokenInfo) (effects : list LogRecord)
    (all_tools : list Tool) :
  credential = Ok ti →
  call_next context = (effects, Return all_tools) →
  snd run = Return (filter_tools scope_map (scopes ti) all_tools []).
Proof.
  intros Hcred Hnext. unfold on_list_tools, _authenticate, invoke.
  rewrite Hcred. simpl. rewrite Hnext. done.
Qed.

Lemma on_list_tools_Return_inv (listed : list Tool) :
  snd run = Return listed →
  ∃ ti effects all_tools,
    credential = Ok ti ∧
    call_next context = (effects, Return all_tools) ∧
    listed = filter_tools scope_map (scopes ti) all_tools [].
Proof.
  unfold on_list_tools, _authenticate, invoke.
  destruct credential as [ti|err]; simpl; [|done].
  destruct (call_next context) as [effects [all_tools|e]] eqn:Hnext;
    simpl; [|done].
  intros [= <-]. by exists ti, effects, all_tools.
Qed.

(** Without authentication nothing is listed and the catalog is not even
    fetched. *)
Lemma on_list_tools_rejected (e : AuthError) :
  credential = Err e →
  snd run = Raise (ExAuthError e) ∧ called run = false.
Proof.
  intros Hcred. unfold on_list_tools, _authenticate. by rewrite Hcred.
Qed.

End ListHookFacts.

(** C2. With a validated credential, the list hook returns a tool of the
    unfiltered catalog exactly when the scope registry names a required
    scope for it and the credential grants that scope; a tool the registry
    does not know is left out, and a credential without scopes lists
    nothing. *)
Theorem on_list_tools_lists_exactly_authorized
    (jwt_decode : JwtDecode) (cfg : Settings) (now : Z)
    (http_request : option Request) (request_id : string)
    (context : ListToolsContext)
    (call_next : CallNext ListToolsContext (list Tool))
    (token_info : TokenInfo) (effects : list LogRecord)
    (all_tools : list Tool) :
  validate_token jwt_decode cfg now (_get_auth_header http_request)
    = Ok token_info →
  call_next context = (effects, Return all_tools) →
  ∃ listed,
    snd (on_list_tools jwt_decode cfg TOOL_SCOPE_MAP now http_request
           request_id context call_next) = Return listed ∧
    (∀ tool, tool ∈ listed ↔
             tool ∈ all_tools ∧
             authorized_listing token_info TOOL_SCOPE_MAP tool) ∧
    (∀ tool, TOOL_SCOPE_MAP !! name tool = None → tool ∉ listed) ∧
    (scopes token_info = [] → listed = []).
Proof.
  intros Hcred Hnext.
  exists (filter_tools TOOL_SCOPE_MAP (scopes token_info) all_tools []).
  split; [by eapply on_list_tools_Ok|]. split_and!.
  - intros tool. rewrite elem_of_filter_tools, visible_true.
    unfold authorized_listing. split.
    + intros (Hin & r & Hmap & _ & Hscope). eauto.
    + intros (Hin & r & Hmap & Hscope). split; [done|].
      exists r. split_and!; [done| |done].
      by eapply TOOL_SCOPE_MAP_no_blank.
  - intros tool Hnone. rewrite elem_of_filter_tools, visible_true.
    intros (_ & r & Hmap & _). congruence.
  - intros Hempty. apply elem_of_nil_inv. intros tool.
    rewrite elem_of_filter_tools, visible_true, Hempty.
    intros (_ & r & _ & _ & Hin). by apply elem_of_nil in Hin.
Qed.

Lemma on_list_tools_lists_exactly_authorized_witness :
  validate_token sample_decode settings 1000
    (_get_auth_header (request_with "Bearer alice.jwt"))
    = Ok {| subject := PStr "alice"; scopes := ["public:read"] |} ∧
  list_catalog () = ([], Return catalog) ∧
  ∃ listed,
    snd (on_list_tools sample_decode settings TOOL_SCOPE_MAP 1000
           (request_with "Bearer alice.jwt") "1a2b3c4d" () list_catalog)
      = Return listed ∧
    (∀ tool, tool ∈ listed ↔
             tool ∈ catalog ∧
             authorized_listing
               {| subject := PStr "alice"; scopes := ["public:read"] |}
               TOOL_SCOPE_MAP tool) ∧
    (∀ tool, TOOL_SCOPE_MAP !! name tool = None → tool ∉ listed) ∧
    (scopes {| subject := PStr "alice"; scopes := ["public:read"] |} = [] →
     listed = []).
Proof.
  assert (validate_token sample_decode settings 1000
            (_get_auth_header (request_with "Bearer alice.jwt"))
          = Ok {| subject := PStr "alice"; scopes := ["public:read"] |})
    as Hcred by (vm_compute; reflexivity).
  split_and!; [exact Hcred | reflexivity |].
  exact (on_list_tools_lists_exactly_authorized sample_decode settings 1000
           (request_with "Bearer alice.jwt") "1a2b3c4d" () list_catalog
           _ [] catalog Hcred eq_refl).
Defined.

(** C10. Whatever the list hook returns is a subsequence of the catalog
    that [call_next] produced: the same tools, unchanged, in the same
    relative order, none repeated or invented. *)
Theorem on_list_tools_returns_sublist
    (jwt_decode : JwtDecode) (cfg : Settings) (scope_map : gmap string string)
    (now : Z) (http_request : option Request) (request_id : string)
    (context : ListToolsContext)
    (call_next : CallNext ListToolsContext (list Tool))
    (listed : list Tool) :
  snd (on_list_tools jwt_decode cfg scope_map now http_request request_id
         context call_next) = Return listed →
  ∃ effects all_tools,
    call_next context = (effects, Return all_tools) ∧
    listed `sublist_of` all_tools.
Proof.
  intros Hrun.
  apply on_list_tools_Return_inv in Hrun
    as (ti & effects & all_tools & _ & Hnext & ->).
  exists effects, all_tools. split; [done|]. apply filter_tools_sublist.
Qed.

Lemma on_list_tools_returns_sublist_witness :
  snd (on_list_tools sample_decode settings TOOL_SCOPE_MAP 1000
         (request_with "Bearer alice.jwt") "1a2b3c4d" () list_catalog)
    = Return [{| name := "get_public_info";
                 description :=
                   "Retrieve public company information document." |}] ∧
  ∃ effects all_tools,
    list_catalog () = (effects, Return all_tools) ∧
    [{| name := "get_public_info";
        description := "Retrieve public company information document." |}]
      `sublist_of` all_tools.
Proof.
  assert (snd (on_list_tools sample_decode settings TOOL_SCOPE_MAP 1000
                 (request_with "Bearer alice.jwt") "1a2b3c4d" () list_catalog)
          = Return [{| name := "get_public_info";
                       description :=
                         "Retrieve public company information document." |}])
    as Hrun by (vm_compute; reflexivity).
  split; [exact Hrun|].
  exact (on_list_tools_returns_sublist sample_decode settings TOOL_SCOPE_MAP
           1000 (request_with "Bearer alice.jwt") "1a2b3c4d" () list_catalog
           _ Hrun).
Defined.

(** C9. The two hooks disagree on a required scope that is the empty
    string.  The list hook tests the scope for truthiness and so never shows
    such a tool, to any credential; the invoke hook tests the lookup against
    [None] only and lets the call through for a credential that grants the
    empty scope.  Hence there are a registry and a credential for which a
    tool that is never listed can be called. *)
Theorem blank_scope_hidden_yet_callable :
  (∀ jwt_decode cfg scope_map now http_request request_id context
     (call_next : CallNext ListToolsContext (list Tool)) listed tool,
      scope_map !! name tool = Some "" →
      snd (on_list_tools jwt_decode cfg scope_map now http_request request_id
             context call_next) = Return listed →
      tool ∉ listed) ∧
  (∀ (R : Type) jwt_decode cfg scope_map now http_request request_id context
     (call_next : CallNext CallToolContext R) token_info,
      validate_token jwt_decode cfg now (_get_auth_header http_request)
        = Ok token_info →
      scope_map !! message_name context = Some "" →
      "" ∈ scopes token_info →
      let run := on_call_tool jwt_decode cfg scope_map now http_request
                   request_id context call_next in
      called run = true ∧ snd run = snd (call_next context)) ∧
  (∃ scope_map http_request tool,
      (∀ jwt_decode cfg now http_request' request_id context
         (call_next : CallNext ListToolsContext (list Tool)) listed,
          snd (on_list_tools jwt_decode cfg scope_map now http_request'
                 request_id context call_next) = Return listed →
          tool ∉ listed) ∧
      let run := on_call_tool sample_decode settings scope_map 1000
                   http_request "1a2b3c4d" (call_of (name tool)) echo_tool in
      called run = true ∧ snd run = snd (echo_tool (call_of (name tool)))).
Proof.
  assert (∀ jwt_decode cfg scope_map now http_request request_id context
            (call_next : CallNext ListToolsContext (list Tool)) listed tool,
            scope_map !! name tool = Some "" →
            snd (on_list_tools jwt_decode cfg scope_map now http_request
                   request_id context call_next) = Return listed →
            tool ∉ listed) as Hhidden.
  { intros ????????? tool Hblank Hrun.
    apply on_list_tools_Return_inv in Hrun as (ti & ? & all_tools & _ & _ & ->).
    rewrite elem_of_filter_tools, visible_true.
    intros (_ & r & Hmap & Hne & _). congruence. }
  split_and!.
  - exact Hhidden.
  - intros R ???????? ti Hcred Hblank Hin.
    destruct (on_call_tool_allowed jwt_decode cfg scope_map now http_request
                request_id ti "" context call_next Hcred Hblank Hin). done.
  - exists registry_with_blank, (request_with "Bearer erin.jwt"), debug_tool.
    split.
    + intros. eapply Hhidden; [|done]. reflexivity.
    + assert (validate_token sample_decode settings 1000
                (_get_auth_header (request_with "Bearer erin.jwt"))
              = Ok {| subject := PStr "erin"; scopes := [""] |}) as Hcred
        by (vm_compute; reflexivity).
      destruct (on_call_tool_allowed sample_decode settings registry_with_blank
                  1000 (request_with "Bearer erin.jwt") "1a2b3c4d" _ ""
                  (call_of (name debug_tool)) echo_tool Hcred eq_refl
                  (list_elem_of_here _ _)).
      done.
Qed.

Lemma blank_scope_hidden_yet_callable_witness :
  let listing := on_list_tools sample_decode settings registry_with_blank 1000
                   (request_with "Bearer erin.jwt") "1a2b3c4d" ()
                   (fun _ => ([], Return (debug_tool :: catalog))) in
  let run := on_call_tool sample_decode settings registry_with_blank 1000
               (request_with "Bearer erin.jwt") "1a2b3c4d"
               (call_of "get_debug_info") echo_tool in
  registry_with_blank !! "get_debug_info" = Some "" ∧
  snd listing = Return [] ∧
  (debug_tool ∉ ([] : list Tool)) ∧
  called run = true ∧ snd run = Return "contents of get_debug_info".
Proof.
  destruct blank_scope_hidden_yet_callable as (Hhidden & Hcall & _).
  assert (snd (on_list_tools sample_decode settings registry_with_blank 1000
                 (request_with "Bearer erin.jwt") "1a2b3c4d" ()
                 (fun _ => ([], Return (debug_tool :: catalog)))) = Return [])
    as Hlist by (vm_compute; reflexivity).
  assert (registry_with_blank !! name debug_tool = Some "") as Hblank
    by reflexivity.
  split_and!; [exact Hblank | exact Hlist | ..].
  - exact (Hhidden sample_decode settings registry_with_blank 1000
             (request_with "Bearer erin.jwt") "1a2b3c4d" () _ [] debug_tool
             Hblank Hlist).
  - apply (Hcall string sample_decode settings registry_with_blank 1000
             (request_with "Bearer erin.jwt") "1a2b3c4d"
             (call_of "get_debug_info") echo_tool
             {| subject := PStr "erin"; scopes := [""] |});
      [vm_compute; reflexivity | reflexivity | apply list_elem_of_here].
  - apply (Hcall string sample_decode settings registry_with_blank 1000
             (request_with "Bearer erin.jwt") "1a2b3c4d"
             (call_of "get_debug_info") echo_tool
             {| subject := PStr "erin"; scopes := [""] |});
      [vm_compute; reflexivity | reflexivity | apply list_elem_of_here].
Defined.

(** ** The symbolic decoder keeps PyJWT's promises *)

Lemma missing_claim_None (require : list string) (p : Payload) (c : string) :
  SymbolicJwt.missing_claim require p = None → c ∈ require → is_Some (p !! c).
Proof.
  unfold SymbolicJwt.missing_claim. intros Hfind Hin.
  apply list_elem_of_In in Hin.
  pose proof (find_none _ _ Hfind c Hin) as Hc. simpl in Hc.
  apply negb_false_iff, bool_decide_eq_true in Hc. done.
Qed.

Lemma symbolic_decode_Ok_inv (tokens : gmap string SymbolicJwt.Issued)
    (now : Z) (token key : string) (algorithms require : list string)
    (payload : Payload) :
  SymbolicJwt.decode tokens now token key algorithms require = Ok payload →
  ∃ t, tokens !! token = Some t ∧ payload = SymbolicJwt.claims t ∧
       SymbolicJwt.signed_key t = key ∧
       SymbolicJwt.missing_claim require payload = None ∧
       (∀ v, payload !! "sub" = Some v → isinstance_str v = true).
Proof.
  unfold SymbolicJwt.decode. intros H.
  destruct (tokens !! token) as [t|]; [|done]. exists t.
  repeat case_match; simplify_eq; simpl in *;
    repeat match goal with
           | H : negb (bool_decide _) = false |- _ =>
               apply negb_false_iff, bool_decide_eq_true in H
           end;
    split_and!; try done; intros v' ?; by simplify_eq.
Qed.

Lemma symbolic_decode_contract (tokens : gmap string SymbolicJwt.Issued) :
  PyJwtContract (SymbolicJwt.decode tokens).
Proof.
  split.
  - intros now token key algorithms require payload H c Hc.
    apply symbolic_decode_Ok_inv in H as (t & _ & -> & _ & Hmiss & _).
    by eapply missing_claim_None.
  - intros now token key algorithms require payload v H Hsub.
    apply symbolic_decode_Ok_inv in H as (t & _ & -> & _ & _ & Hstr).
    by apply Hstr.
Qed.

(** ** The credential validator *)

(** C4, as the code has it.  A token whose decode-and-verify step fails is
    always refused with an [AuthError] of status 401, but not with one
    message: an expired token gets "Token has expired", every other failure
    a message that starts with "Invalid token", and the first does not
    start like the second. *)
Theorem decode_failure_raises_AuthError
    (jwt_decode : JwtDecode) (cfg : Settings) (now : Z)
    (header scheme token : string) (e : JwtError) :
  split_space_1 header = [scheme; token] →
  lower scheme = "bearer" →
  jwt_decode now token (jwt_secret_key cfg) [jwt_algorithm cfg] ["exp"; "sub"]
    = Err e →
  ∃ msg,
    validate_token jwt_decode cfg now (Some header) = Err (mkAuthError msg) ∧
    match e with
    | ExpiredSignatureError _ =>
        msg = "Token has expired" ∧ String.prefix "Invalid token" msg = false
    | InvalidTokenError _ => String.prefix "Invalid token" msg = true
    end.
Proof.
  intros Hsplit Hscheme Hdec.
  rewrite (validate_token_bearer _ _ _ _ _ _ Hsplit Hscheme).
  unfold decode_token. rewrite Hdec. destruct e as [text|text].
  - by exists "Token has expired".
  - by exists ("Invalid token: " +:+ text).
Qed.

Lemma decode_failure_raises_AuthError_witness :
  split_space_1 "Bearer forged.jwt" = ["Bearer"; "forged.jwt"] ∧
  lower "Bearer" = "bearer" ∧
  sample_decode 1000 "forged.jwt" (jwt_secret_key settings)
    [jwt_algorithm settings] ["exp"; "sub"]
    = Err (InvalidTokenError "Signature verification failed") ∧
  ∃ msg,
    validate_token sample_decode settings 1000 (Some "Bearer forged.jwt")
      = Err (mkAuthError msg) ∧
    String.prefix "Invalid token" msg = true.
Proof.
  assert (sample_decode 1000 "forged.jwt" (jwt_secret_key settings)
            [jwt_algorithm settings] ["exp"; "sub"]
          = Err (InvalidTokenError "Signature verification failed")) as Hdec
    by (vm_compute; reflexivity).
  split_and!; [reflexivity | reflexivity | exact Hdec |].
  exact (decode_failure_raises_AuthError sample_decode settings 1000
           "Bearer forged.jwt" "Bearer" "forged.jwt" _ eq_refl eq_refl Hdec).
Defined.

(** C4, as the specification words it, fails: the expired token and the
    badly signed token of the test suite are refused with different
    messages, so no single message serves all verification failures. *)
Lemma expired_and_forged_tokens_told_apart :
  validate_token sample_decode settings 1000 (Some "Bearer expired.jwt")
    = Err (mkAuthError "Token has expired") ∧
  validate_token sample_decode settings 1000 (Some "Bearer forged.jwt")
    = Err (mkAuthError "Invalid token: Signature verification failed") ∧
  ¬ one_message_for_all_failures sample_decode settings 1000.
Proof.
  assert (validate_token sample_decode settings 1000
            (Some "Bearer expired.jwt")
          = Err (mkAuthError "Token has expired")) as Hexp
    by (vm_compute; reflexivity).
  assert (validate_token sample_decode settings 1000
            (Some "Bearer forged.jwt")
          = Err (mkAuthError "Invalid token: Signature verification failed"))
    as Hforged by (vm_compute; reflexivity).
  split_and!; [done..|].
  intros [msg Hone].
  assert (@Err AuthError TokenInfo (mkAuthError "Token has expired")
          = Err (mkAuthError msg)) as H1.
  { rewrite <- Hexp.
    apply (Hone "expired.jwt" (ExpiredSignatureError "Signature has expired")).
    vm_compute; reflexivity. }
  assert (@Err AuthError TokenInfo
            (mkAuthError "Invalid token: Signature verification failed")
          = Err (mkAuthError msg)) as H2.
  { rewrite <- Hforged.
    apply (Hone "forged.jwt"
             (InvalidTokenError "Signature verification failed")).
    vm_compute; reflexivity. }
  unfold mkAuthError in H1, H2. by simplify_eq.
Qed.




(** C6. For a token that passed signature and expiry verification: a
    [scope] claim that is not a list is refused with "Invalid scope claim:
    must be a list"; a list with an entry that is not a string is refused
    with "Invalid scope claim: all entries must be strings"; a token without
    a [scope] claim is accepted, with no granted scopes.  (The messages are
    the code's, which writes them with a capital I.) *)
Theorem scope_claim_typing
    (jwt_decode : JwtDecode) (cfg : Settings) (now : Z)
    (header scheme token : string) (payload : Payload) :
  split_space_1 header = [scheme; token] →
  lower scheme = "bearer" →
  jwt_decode now token (jwt_secret_key cfg) [jwt_algorithm cfg] ["exp"; "sub"]
    = Ok payload →
  (∀ v, payload !! "scope" = Some v → isinstance_list v = false →
        validate_token jwt_decode cfg now (Some header)
          = Err (mkAuthError "Invalid scope claim: must be a list")) ∧
  (∀ items, payload !! "scope" = Some (PList items) →
            (∃ x, x ∈ items ∧ isinstance_str x = false) →
            validate_token jwt_decode cfg now (Some header)
              = Err (mkAuthError
                       "Invalid scope claim: all entries must be strings")) ∧
  (payload !! "scope" = None →
   ∃ token_info,
     validate_token jwt_decode cfg now (Some header) = Ok token_info ∧
     scopes token_info = []).
Proof.
  intros Hsplit Hscheme Hdec.
  rewrite (validate_token_bearer _ _ _ _ _ _ Hsplit Hscheme).
  unfold decode_token. rewrite Hdec. unfold extract_claims. split_and!.
  - intros v -> Hv. simpl. by destruct v.
  - intros items -> (x & Hx & Hstr). simpl.
    destruct (forallb isinstance_str items) eqn:Hall; [|done].
    apply list_elem_of_In in Hx.
    rewrite forallb_forall in Hall. specialize (Hall x Hx). congruence.
  - intros ->. simpl. by eexists.
Qed.

Lemma scope_claim_typing_witness :
  validate_token sample_decode settings 1000 (Some "Bearer strscope.jwt")
    = Err (mkAuthError "Invalid scope claim: must be a list") ∧
  validate_token sample_decode settings 1000 (Some "Bearer mixed.jwt")
    = Err (mkAuthError "Invalid scope claim: all entries must be strings") ∧
  ∃ token_info,
    validate_token sample_decode settings 1000 (Some "Bearer dave.jwt")
      = Ok token_info ∧
    scopes token_info = [].
Proof.
  split_and!.
  - destruct (scope_claim_typing sample_decode settings 1000
                "Bearer strscope.jwt" "Bearer" "strscope.jwt"
                (SymbolicJwt.claims
                   (SymbolicJwt.make_token (Some (PStr "alice"))
                      (Some (PStr "public:read")) (Some 3600)
                      SymbolicJwt.test_secret)))
      as (Hnot_list & _ & _);
      [reflexivity | reflexivity | vm_compute; reflexivity |].
    apply (Hnot_list (PStr "public:read")); [vm_compute|]; reflexivity.
  - destruct (scope_claim_typing sample_decode settings 1000
                "Bearer mixed.jwt" "Bearer" "mixed.jwt"
                (SymbolicJwt.claims
                   (SymbolicJwt.make_token (Some (PStr "alice"))
                      (Some (PList [PStr "public:read"; PInt 123]))
                      (Some 3600) SymbolicJwt.test_secret)))
      as (_ & Hnot_str & _);
      [reflexivity | reflexivity | vm_compute; reflexivity |].
    apply (Hnot_str [PStr "public:read"; PInt 123]);
      [vm_compute; reflexivity|].
    exists (PInt 123). split; [set_solver | reflexivity].
  - destruct (scope_claim_typing sample_decode settings 1000
                "Bearer dave.jwt" "Bearer" "dave.jwt"
                (SymbolicJwt.claims
                   (SymbolicJwt.make_token (Some (PStr "dave")) None
                      (Some 3600) SymbolicJwt.test_secret)))
      as (_ & _ & Habsent);
      [reflexivity | reflexivity | vm_compute; reflexivity |].
    apply Habsent. vm_compute; reflexivity.
Defined.



Lemma authorization_outcome_deterministic_witness :
  let run1 := on_call_tool sample_decode settings TOOL_SCOPE_MAP 1000
                (request_with "Bearer alice.jwt") "1a2b3c4d"
                (call_of "get_confidential_info") echo_tool in
  let run2 := on_call_tool sample_decode settings TOOL_SCOPE_MAP 1000
                (request_with "Bearer alice.jwt") "9f8e7d6c"
                (call_of "get_confidential_info") echo_tool in
  decision run1 = decision run2 ∧ snd run1 = snd run2.
Proof.
  destruct (authorization_outcome_deterministic sample_decode settings
              TOOL_SCOPE_MAP 1000 (request_with "Bearer alice.jwt")
              (call_of "get_confidential_info") "1a2b3c4d" "9f8e7d6c"
              echo_tool echo_tool) as (_ & Hdecision & Hsame).
  split; [exact Hdecision | exact (Hsame eq_refl)].
Defined.

(** * Further properties of the middleware *)

(** ** Refusals *)

(** X1. A tool that the registry maps to a scope the credential does not
    grant is refused with the permission error that names both the tool and
    the missing scope, and [call_next] is not invoked. *)
Theorem on_call_tool_insufficient_scope_denied {R : Type}
    (jwt_decode : JwtDecode) (cfg : Settings) (scope_map : gmap string string)
    (now : Z) (http_request : option Request) (request_id : string)
    (context : CallToolContext) (call_next : CallNext CallToolContext R)
    (token_info : TokenInfo) (required_scope : string) :
  validate_token jwt_decode cfg now (_get_auth_header http_request)
    = Ok token_info →
  scope_map !! message_name context = Some required_scope →
  required_scope ∉ scopes token_info →
  let run := on_call_tool jwt_decode cfg scope_map now http_request
               request_id context call_next in
  snd run = Raise (ExPermissionError
                     ("Access denied: tool '" +:+ message_name context
                      +:+ "' requires scope '" +:+ required_scope +:+ "'")) ∧
  calls run = 0%nat.
Proof.
  intros Hcred Hmap Hscope. unfold on_call_tool, _authenticate.
  rewrite Hcred. simpl. rewrite Hmap.
  rewrite bool_decide_false by done. done.
Qed.

Lemma on_call_tool_insufficient_scope_denied_witness :
  let run := on_call_tool sample_decode settings TOOL_SCOPE_MAP 1000
               (request_with "Bearer alice.jwt") "1a2b3c4d"
               (call_of "get_confidential_info") echo_tool in
  snd run = Raise (ExPermissionError
    "Access denied: tool 'get_confidential_info' requires scope 'confidential:read'") ∧
  calls run = 0%nat.
Proof.
  apply (on_call_tool_insufficient_scope_denied sample_decode settings
           TOOL_SCOPE_MAP 1000 (request_with "Bearer alice.jwt") "1a2b3c4d"
           (call_of "get_confidential_info") echo_tool
           {| subject := PStr "alice"; scopes := ["public:read"] |}
           "confidential:read");
    [vm_compute; reflexivity | vm_compute; reflexivity |].
  simpl. by intros [=]%list_elem_of_singleton.
Defined.

(** X2. Without an HTTP request in scope (another transport), without an
    [Authorization] header, or with an empty one, both hooks refuse with
    "Missing Authorization header": the decoder is not consulted, nothing is
    listed and [call_next] is not invoked. *)
Theorem hooks_refuse_without_header {R : Type}
    (jwt_decode : JwtDecode) (cfg : Settings) (scope_map : gmap string string)
    (now : Z) (http_request : option Request) (request_id : string)
    (context : CallToolContext) (call_next : CallNext CallToolContext R)
    (list_context : ListToolsContext)
    (list_next : CallNext ListToolsContext (list Tool)) :
  (http_request = None ∨
   ∃ request, http_request = Some request ∧
              (headers request !! "authorization" = None ∨
               headers request !! "authorization" = Some "")) →
  let refusal := ExAuthError (mkAuthError "Missing Authorization header") in
  let call := on_call_tool jwt_decode cfg scope_map now http_request
                request_id context call_next in
  let listing := on_list_tools jwt_decode cfg scope_map now http_request
                   request_id list_context list_next in
  snd call = Raise refusal ∧ calls call = 0%nat ∧
  snd listing = Raise refusal ∧ calls listing = 0%nat.
Proof.
  intros Hreq.
  assert (truthy (_get_auth_header http_request) = false) as Hheader.
  { apply truthy_false. unfold _get_auth_header.
    destruct Hreq as [->|(request & -> & [->| ->])]; auto. }
  pose proof (validate_token_missing jwt_decode cfg now _ Hheader) as Hcred.
  simpl. unfold on_call_tool, on_list_tools, _authenticate.
  rewrite Hcred. done.
Qed.

Lemma hooks_refuse_without_header_witness :
  let refusal := ExAuthError (mkAuthError "Missing Authorization header") in
  let call := on_call_tool sample_decode settings TOOL_SCOPE_MAP 1000
                None "1a2b3c4d" (call_of "get_public_info") echo_tool in
  let listing := on_list_tools sample_decode settings TOOL_SCOPE_MAP 1000
                   None "1a2b3c4d" () list_catalog in
  snd call = Raise refusal ∧ calls call = 0%nat ∧
  snd listing = Raise refusal ∧ calls listing = 0%nat.
Proof.
  apply (hooks_refuse_without_header sample_decode settings TOOL_SCOPE_MAP
           1000 None "1a2b3c4d" (call_of "get_public_info") echo_tool
           () list_catalog).
  by left.
Defined.

(** ** The audit trail *)

(** X3. When authentication fails, each hook logs exactly one record, a
    warning that carries the request id, the decision "rejected" and the
    fixed reason "authentication_failed" and nothing about the cause, and
    then raises the validator's error unchanged. *)
Theorem authentication_failure_audit {R : Type}
    (jwt_decode : JwtDecode) (cfg : Settings) (scope_map : gmap string string)
    (now : Z) (http_request : option Request) (request_id : string)
    (context : CallToolContext) (call_next : CallNext CallToolContext R)
    (list_context : ListToolsContext)
    (list_next : CallNext ListToolsContext (list Tool)) (e : AuthError) :
  validate_token jwt_decode cfg now (_get_auth_header http_request) = Err e →
  let record :=
    {| level := WARNING;
       text := "Authentication failed";
       auth_data := [("request_id", PStr request_id);
                     ("decision", PStr "rejected");
                     ("reason", PStr "authentication_failed")] |} in
  on_call_tool jwt_decode cfg scope_map now http_request request_id
    context call_next = ([Logged record], Raise (ExAuthError e)) ∧
  on_list_tools jwt_decode cfg scope_map now http_request request_id
    list_context list_next = ([Logged record], Raise (ExAuthError e)).
Proof.
  intros Hcred. simpl. unfold on_call_tool, on_list_tools, _authenticate.
  rewrite Hcred. done.
Qed.

Lemma authentication_failure_audit_witness :
  logged (on_call_tool sample_decode settings TOOL_SCOPE_MAP 1000
            (request_with "Bearer forged.jwt") "1a2b3c4d"
            (call_of "get_public_info") echo_tool)
    = logged (on_list_tools sample_decode settings TOOL_SCOPE_MAP 1000
                (request_with "Bearer forged.jwt") "1a2b3c4d" () list_catalog).
Proof.
  destruct (authentication_failure_audit sample_decode settings TOOL_SCOPE_MAP
              1000 (request_with "Bearer forged.jwt") "1a2b3c4d"
              (call_of "get_public_info") echo_tool () list_catalog
              (mkAuthError "Invalid token: Signature verification failed"))
    as [-> ->]; [vm_compute; reflexivity|].
  reflexivity.
Defined.

(** X4. An authenticated invocation logs exactly two records: first the
    successful authentication with the subject, then one decision about the
    tool.  A denial is a warning and ends the trail.  A permission is logged
    at level INFO before [call_next] runs, and [call_next] runs once, as the
    last event. *)
Theorem on_call_tool_audit_trail {R : Type}
    (jwt_decode : JwtDecode) (cfg : Settings) (scope_map : gmap string string)
    (now : Z) (http_request : option Request) (request_id : string)
    (context : CallToolContext) (call_next : CallNext CallToolContext R)
    (token_info : TokenInfo) :
  validate_token jwt_decode cfg now (_get_auth_header http_request)
    = Ok token_info →
  let run := on_call_tool jwt_decode cfg scope_map now http_request
               request_id context call_next in
  ∃ authenticated decided,
    logged run = [authenticated; decided] ∧
    level authenticated = INFO ∧
    auth_field authenticated "decision" = Some (PStr "authenticated") ∧
    auth_field authenticated "subject" = Some (subject token_info) ∧
    auth_field decided "tool" = Some (PStr (message_name context)) ∧
    if called run
    then level decided = INFO ∧
         auth_field decided "decision" = Some (PStr "allowed") ∧
         fst run = [Logged authenticated; Logged decided;
                    Called (fst (call_next context))]
    else level decided = WARNING ∧
         auth_field decided "decision" = Some (PStr "denied") ∧
         fst run = [Logged authenticated; Logged decided].
Proof.
  intros Hcred. simpl. unfold on_call_tool, _authenticate.
  rewrite Hcred. simpl.
  destruct (scope_map !! message_name context) as [required|]; simpl.
  - case_bool_decide; simpl.
    + unfold invoke. destruct (call_next context) as [effects out].
      simpl. eexists _, _. split_and!; reflexivity.
    + eexists _, _. split_and!; reflexivity.
  - eexists _, _. split_and!; reflexivity.
Qed.

Lemma on_call_tool_audit_trail_witness :
  let run := on_call_tool sample_decode settings TOOL_SCOPE_MAP 1000
               (request_with "Bearer alice.jwt") "1a2b3c4d"
               (call_of "get_public_info") echo_tool in
  ∃ authenticated decided,
    logged run = [authenticated; decided] ∧
    fst run = [Logged authenticated; Logged decided;
               Called (fst (echo_tool (call_of "get_public_info")))].
Proof.
  destruct (on_call_tool_audit_trail sample_decode settings TOOL_SCOPE_MAP 1000
              (request_with "Bearer alice.jwt") "1a2b3c4d"
              (call_of "get_public_info") echo_tool
              {| subject := PStr "alice"; scopes := ["public:read"] |})
    as (authenticated & decided & Hlogged & _ & _ & _ & _ & Hcase);
    [vm_compute; reflexivity|].
  exists authenticated, decided. split; [exact Hlogged|].
  assert (called (on_call_tool sample_decode settings TOOL_SCOPE_MAP 1000
                    (request_with "Bearer alice.jwt") "1a2b3c4d"
                    (call_of "get_public_info") echo_tool) = true) as Hcalled
    by (vm_compute; reflexivity).
  rewrite Hcalled in Hcase. apply Hcase.
Defined.

(** X5. A successful listing fetches the catalog once, after authentication,
    and then logs one "filtered" record that reports the size of the whole
    catalog, the scopes of the credential and the names of exactly the tools
    it returns.  If fetching the catalog fails, the hook raises that error
    and logs no such record. *)
Theorem on_list_tools_audit_record
    (jwt_decode : JwtDecode) (cfg : Settings) (scope_map : gmap string string)
    (now : Z) (http_request : option Request) (request_id : string)
    (context : ListToolsContext)
    (call_next : CallNext ListToolsContext (list Tool))
    (token_info : TokenInfo) :
  validate_token jwt_decode cfg now (_get_auth_header http_request)
    = Ok token_info →
  let run := on_list_tools jwt_decode cfg scope_map now http_request
               request_id context call_next in
  match call_next context with
  | (effects, Return all_tools) =>
      ∃ authenticated filtered listed,
        run = ([Logged authenticated; Called effects; Logged filtered],
               Return listed) ∧
        auth_field filtered "decision" = Some (PStr "filtered") ∧
        auth_field filtered "scopes" = Some (pylist_of (scopes token_info)) ∧
        auth_field filtered "total_tools"
          = Some (PInt (Z.of_nat (length all_tools))) ∧
        auth_field filtered "authorized_tools"
          = Some (pylist_of (map name listed))
  | (effects, Raise e) =>
      ∃ authenticated,
        run = ([Logged authenticated; Called effects], Raise e)
  end.
Proof.
  intros Hcred. simpl. unfold on_list_tools, _authenticate, invoke.
  rewrite Hcred. simpl.
  destruct (call_next context) as [effects [all_tools|e]]; simpl.
  - eexists _, _, _. split_and!; reflexivity.
  - eexists. reflexivity.
Qed.

Lemma on_list_tools_audit_record_witness :
  ∃ authenticated filtered,
    fst (on_list_tools sample_decode settings TOOL_SCOPE_MAP 1000
           (request_with "Bearer alice.jwt") "1a2b3c4d" () list_catalog)
      = [Logged authenticated; Called []; Logged filtered] ∧
    auth_field filtered "total_tools" = Some (PInt 2) ∧
    auth_field filtered "authorized_tools"
      = Some (PList [PStr "get_public_info"]).
Proof.
  pose proof (on_list_tools_audit_record sample_decode settings TOOL_SCOPE_MAP
                1000 (request_with "Bearer alice.jwt") "1a2b3c4d" ()
                list_catalog
                {| subject := PStr "alice"; scopes := ["public:read"] |}
                ltac:(vm_compute; reflexivity)) as H.
  simpl in H.
  destruct H as (authenticated & filtered & listed & Hrun & _ & _ & Htotal & Hnames).
  exists authenticated, filtered.
  assert (listed = [{| name := "get_public_info";
                       description :=
                         "Retrieve public company information document." |}])
    as ->.
  { apply (f_equal snd) in Hrun. vm_compute in Hrun. by injection Hrun. }
  split_and!; [by rewrite Hrun | exact Htotal | exact Hnames].
Defined.

(** ** Listing and invoking together *)

Lemma visible_mono (scope_map : gmap string string)
    (scopes1 scopes2 : list string) (tool : Tool) :
  scopes1 ⊆ scopes2 →
  visible scope_map scopes1 tool = true →
  visible scope_map scopes2 tool = true.
Proof.
  intros Hsub. rewrite !visible_true.
  intros (r & Hmap & Hne & Hin). exists r. split_and!; [done..|].
  by apply Hsub.
Qed.

Lemma filter_sublist_mono {A} (f g : A → bool) (l : list A) :
  (∀ x, f x = true → g x = true) →
  List.filter f l `sublist_of` List.filter g l.
Proof.
  intros Himp. induction l as [|x l IH]; simpl; [constructor|].
  destruct (f x) eqn:Hf.
  - rewrite (Himp x Hf). by apply sublist_skip.
  - destruct (g x); [by apply sublist_cons | done].
Qed.

(** X6. For every registry, the list hook returns the catalog filtered by
    one test, keeping order and repetitions: a tool stays exactly when the
    registry maps its name to a non-empty scope that the credential
    grants. *)
Theorem on_list_tools_lists_exactly_visible
    (jwt_decode : JwtDecode) (cfg : Settings) (scope_map : gmap string string)
    (now : Z) (http_request : option Request) (request_id : string)
    (context : ListToolsContext)
    (call_next : CallNext ListToolsContext (list Tool))
    (token_info : TokenInfo) (effects : list LogRecord)
    (all_tools : list Tool) :
  validate_token jwt_decode cfg now (_get_auth_header http_request)
    = Ok token_info →
  call_next context = (effects, Return all_tools) →
  snd (on_list_tools jwt_decode cfg scope_map now http_request request_id
         context call_next)
    = Return (List.filter (visible scope_map (scopes token_info)) all_tools) ∧
  ∀ tool,
    visible scope_map (scopes token_info) tool = true ↔
    ∃ required_scope,
      scope_map !! name tool = Some required_scope ∧
      required_scope ≠ "" ∧
      required_scope ∈ scopes token_info.
Proof.
  intros Hcred Hnext. split.
  - rewrite (on_list_tools_Ok _ _ _ _ _ _ _ _ _ _ _ Hcred Hnext).
    by rewrite filter_tools_spec.
  - intros tool. apply visible_true.
Qed.

Lemma on_list_tools_lists_exactly_visible_witness :
  snd (on_list_tools sample_decode settings registry_with_blank 1000
         (request_with "Bearer erin.jwt") "1a2b3c4d" ()
         (fun _ => ([], Return (debug_tool :: catalog))))
    = Return (List.filter (visible registry_with_blank [""])
                          (debug_tool :: catalog)) ∧
  List.filter (visible registry_with_blank [""]) (debug_tool :: catalog) = [].
Proof.
  destruct (on_list_tools_lists_exactly_visible sample_decode settings
              registry_with_blank 1000 (request_with "Bearer erin.jwt")
              "1a2b3c4d" () (fun _ => ([], Return (debug_tool :: catalog)))
              {| subject := PStr "erin"; scopes := [""] |} []
              (debug_tool :: catalog)) as [Hrun _];
    [vm_compute; reflexivity | reflexivity |].
  split; [exact Hrun | vm_compute; reflexivity].
Defined.



(** X8. With the registry of [src/tools.py] the two hooks agree: a tool of
    the catalog is in the list a request gets exactly when the same request
    may invoke it. *)
Theorem deployed_hooks_agree {R : Type}
    (jwt_decode : JwtDecode) (cfg : Settings)
    (now : Z) (http_request : option Request)
    (list_id call_id : string) (list_context : ListToolsContext)
    (list_next : CallNext ListToolsContext (list Tool))
    (effects : list LogRecord) (all_tools listed : list Tool) (tool : Tool)
    (arguments : list (string * pyval))
    (call_next : CallNext CallToolContext R) :
  list_next list_context = (effects, Return all_tools) →
  snd (on_list_tools jwt_decode cfg TOOL_SCOPE_MAP now http_request list_id
         list_context list_next) = Return listed →
  tool ∈ all_tools →
  tool ∈ listed ↔
  called (on_call_tool jwt_decode cfg TOOL_SCOPE_MAP now http_request call_id
            {| message_name := name tool; message_arguments := arguments |}
            call_next) = true.
Proof.
  intros Hnext Hlist Hcatalog.
  apply on_list_tools_Return_inv in Hlist
    as (ti & effects' & all_tools' & Hcred & Hnext' & ->).
  rewrite Hnext in Hnext'. injection Hnext' as <- <-.
  rewrite elem_of_filter_tools, visible_true.
  unfold on_call_tool, _authenticate. rewrite Hcred. simpl.
  destruct (TOOL_SCOPE_MAP !! name tool) as [required|] eqn:Hmap; simpl.
  - destruct (decide (required ∈ scopes ti)) as [Hin|Hnotin].
    + rewrite bool_decide_true by done. simpl.
      unfold invoke. destruct (call_next _) as [? ?]. simpl.
      split; [done|]. intros _. split; [done|]. exists required.
      split_and!; [done| |done]. by eapply TOOL_SCOPE_MAP_no_blank.
    + rewrite bool_decide_false by done. simpl. split; [|done].
      intros (_ & r & [= <-] & _ & Hin). done.
  - split; [|done]. intros (_ & r & [=] & _).
Qed.

Lemma deployed_hooks_agree_witness :
  let hidden := {| name := "get_confidential_info";
                   description :=
                     "Retrieve confidential company strategy document." |} in
  hidden ∈ [{| name := "get_public_info";
               description :=
                 "Retrieve public company information document." |}] ↔
  called (on_call_tool sample_decode settings TOOL_SCOPE_MAP 1000
            (request_with "Bearer alice.jwt") "9f8e7d6c"
            (call_of "get_confidential_info") echo_tool) = true.
Proof.
  apply (deployed_hooks_agree sample_decode settings 1000
           (request_with "Bearer alice.jwt") "1a2b3c4d" "9f8e7d6c" ()
           list_catalog [] catalog _
           {| name := "get_confidential_info";
              description :=
                "Retrieve confidential company strategy document." |}
           [] echo_tool);
    [reflexivity | vm_compute; reflexivity |].
  apply list_elem_of_further, list_elem_of_here.
Defined.

(** ** Scopes are additive and unordered *)

Lemma visible_ext (scope_map : gmap string string)
    (scopes1 scopes2 : list string) (tool : Tool) :
  (∀ s, s ∈ scopes1 ↔ s ∈ scopes2) →
  visible scope_map scopes1 tool = visible scope_map scopes2 tool.
Proof.
  intros Hsame.
  destruct (visible scope_map scopes2 tool) eqn:H2.
  - apply (visible_mono _ scopes2); [|done]. intros s. apply Hsame.
  - destruct (visible scope_map scopes1 tool) eqn:H1; [|done].
    rewrite <- H2. symmetry.
    apply (visible_mono _ scopes1); [|done]. intros s. apply Hsame.
Qed.

Lemma filter_ext_all {A} (f g : A → bool) (l : list A) :
  (∀ x, f x = g x) → List.filter f l = List.filter g l.
Proof.
  intros Hfg. induction l as [|x l IH]; simpl; [done|].
  by rewrite Hfg, IH.
Qed.

(** X9. More scopes never mean less access.  If one credential grants every
    scope another grants, then every call allowed to the second is allowed
    to the first, and the list the second gets is a subsequence of the list
    the first gets from the same catalog. *)
Theorem more_scopes_never_less_access {R : Type}
    (jwt_decode : JwtDecode) (cfg : Settings) (scope_map : gmap string string)
    (now : Z) (narrow_request wide_request : option Request)
    (narrow wide : TokenInfo) (id1 id2 : string)
    (context : CallToolContext) (call_next : CallNext CallToolContext R)
    (list_context : ListToolsContext)
    (list_next : CallNext ListToolsContext (list Tool)) :
  validate_token jwt_decode cfg now (_get_auth_header narrow_request)
    = Ok narrow →
  validate_token jwt_decode cfg now (_get_auth_header wide_request)
    = Ok wide →
  scopes narrow ⊆ scopes wide →
  (called (on_call_tool jwt_decode cfg scope_map now narrow_request id1
             context call_next) = true →
   called (on_call_tool jwt_decode cfg scope_map now wide_request id2
             context call_next) = true) ∧
  (∀ listed,
      snd (on_list_tools jwt_decode cfg scope_map now narrow_request id1
             list_context list_next) = Return listed →
      ∃ listed',
        snd (on_list_tools jwt_decode cfg scope_map now wide_request id2
               list_context list_next) = Return listed' ∧
        listed `sublist_of` listed').
Proof.
  intros Hnarrow Hwide Hsub. split.
  - unfold on_call_tool, _authenticate. rewrite Hnarrow, Hwide. simpl.
    destruct (scope_map !! message_name context) as [required|]; [|done].
    destruct (decide (required ∈ scopes narrow)) as [Hin|Hnotin].
    + rewrite (bool_decide_true (required ∈ scopes narrow)) by done.
      rewrite (bool_decide_true (required ∈ scopes wide)) by (by apply Hsub).
      simpl. unfold invoke. by destruct (call_next context).
    + rewrite (bool_decide_false (required ∈ scopes narrow)) by done. done.
  - intros listed Hlist.
    apply on_list_tools_Return_inv in Hlist
      as (ti & effects & all_tools & Hcred & Hnext & ->).
    rewrite Hnarrow in Hcred. injection Hcred as <-.
    exists (filter_tools scope_map (scopes wide) all_tools []).
    split; [by eapply on_list_tools_Ok|].
    rewrite !filter_tools_spec. simpl.
    apply filter_sublist_mono. intros tool. by apply visible_mono.
Qed.

Lemma more_scopes_never_less_access_witness :
  (called (on_call_tool sample_decode settings TOOL_SCOPE_MAP 1000
             (request_with "Bearer alice.jwt") "1a2b3c4d"
             (call_of "get_public_info") echo_tool) = true →
   called (on_call_tool sample_decode settings TOOL_SCOPE_MAP 1000
             (request_with "Bearer bob.jwt") "9f8e7d6c"
             (call_of "get_public_info") echo_tool) = true) ∧
  (∀ listed,
      snd (on_list_tools sample_decode settings TOOL_SCOPE_MAP 1000
             (request_with "Bearer alice.jwt") "1a2b3c4d" () list_catalog)
        = Return listed →
      ∃ listed',
        snd (on_list_tools sample_decode settings TOOL_SCOPE_MAP 1000
               (request_with "Bearer bob.jwt") "9f8e7d6c" () list_catalog)
          = Return listed' ∧
        listed `sublist_of` listed').
Proof.
  apply (more_scopes_never_less_access sample_decode settings TOOL_SCOPE_MAP
           1000 (request_with "Bearer alice.jwt") (request_with "Bearer bob.jwt")
           {| subject := PStr "alice"; scopes := ["public:read"] |}
           {| subject := PStr "bob";
              scopes := ["public:read"; "confidential:read"] |});
    [vm_compute; reflexivity | vm_compute; reflexivity |].
  simpl. intros s Hs. apply list_elem_of_singleton in Hs as ->.
  apply list_elem_of_here.
Defined.

(** X10. Only the set of granted scopes matters.  Two credentials that
    grant the same scopes, in whatever order and however often repeated,
    get the same list from the same catalog and the same answer to the same
    call. *)
Theorem scope_order_and_repeats_irrelevant {R : Type}
    (jwt_decode : JwtDecode) (cfg : Settings) (scope_map : gmap string string)
    (now : Z) (request1 request2 : option Request)
    (credential1 credential2 : TokenInfo) (id1 id2 : string)
    (context : CallToolContext) (call_next : CallNext CallToolContext R)
    (list_context : ListToolsContext)
    (list_next : CallNext ListToolsContext (list Tool)) :
  validate_token jwt_decode cfg now (_get_auth_header request1)
    = Ok credential1 →
  validate_token jwt_decode cfg now (_get_auth_header request2)
    = Ok credential2 →
  (∀ s, s ∈ scopes credential1 ↔ s ∈ scopes credential2) →
  snd (on_call_tool jwt_decode cfg scope_map now request1 id1
         context call_next)
    = snd (on_call_tool jwt_decode cfg scope_map now request2 id2
             context call_next) ∧
  snd (on_list_tools jwt_decode cfg scope_map now request1 id1
         list_context list_next)
    = snd (on_list_tools jwt_decode cfg scope_map now request2 id2
             list_context list_next).
Proof.
  intros H1 H2 Hsame. split.
  - unfold on_call_tool, _authenticate. rewrite H1, H2. simpl.
    destruct (scope_map !! message_name context) as [required|]; [|done].
    destruct (decide (required ∈ scopes credential1)) as [Hin|Hnotin].
    + rewrite (bool_decide_true (required ∈ scopes credential1)) by done.
      rewrite (bool_decide_true (required ∈ scopes credential2))
        by (by apply Hsame).
      simpl. unfold invoke. by destruct (call_next context).
    + rewrite (bool_decide_false (required ∈ scopes credential1)) by done.
      rewrite (bool_decide_false (required ∈ scopes credential2))
        by (by rewrite <- Hsame).
      done.
  - unfold on_list_tools, _authenticate, invoke. rewrite H1, H2. simpl.
    destruct (list_next list_context) as [effects [all_tools|e]]; [|done].
    simpl. rewrite !filter_tools_spec. simpl.
    f_equal. apply filter_ext_all. intros tool. by apply visible_ext.
Qed.

Lemma scope_order_and_repeats_irrelevant_witness :
  snd (on_list_tools more_decode settings TOOL_SCOPE_MAP 1000
         (request_with "Bearer bob.jwt") "1a2b3c4d" () list_catalog)
    = snd (on_list_tools more_decode settings TOOL_SCOPE_MAP 1000
             (request_with "Bearer frank.jwt") "9f8e7d6c" () list_catalog).
Proof.
  apply (scope_order_and_repeats_irrelevant more_decode settings
           TOOL_SCOPE_MAP 1000 (request_with "Bearer bob.jwt")
           (request_with "Bearer frank.jwt")
           {| subject := PStr "bob";
              scopes := ["public:read"; "confidential:read"] |}
           {| subject := PStr "frank";
              scopes := ["confidential:read"; "public:read";
                         "confidential:read"] |}
           "1a2b3c4d" "9f8e7d6c" (call_of "get_public_info") echo_tool);
    [vm_compute; reflexivity | vm_compute; reflexivity |].
  simpl. intros s. rewrite !elem_of_cons, !elem_of_nil. tauto.
Defined.

(** ** More on the validator *)

Lemma map_PStr_str_of (items : list pyval) :
  forallb isinstance_str items = true → map PStr (map str_of items) = items.
Proof.
  induction items as [|v items IH]; simpl; [done|].
  intros [Hv Hitems]%andb_true_iff. rewrite (IH Hitems).
  by destruct v.
Qed.

(** X11. There is no way around the decoder.  When [validate_token] returns
    a credential, the header was a bearer scheme, one space and a token that
    [jwt.decode] accepted with the configured key, the configured algorithm
    as the only one allowed and [exp] and [sub] required; the subject is the
    [sub] claim of that payload and the scopes are its [scope] claim, entry
    by entry in the same order (none when the claim is absent). *)
Theorem validate_token_success_means_decoded
    (jwt_decode : JwtDecode) (cfg : Settings) (now : Z)
    (h : option string) (token_info : TokenInfo) :
  validate_token jwt_decode cfg now h = Ok token_info →
  ∃ scheme token payload,
    h = Some (scheme +:+ " " +:+ token) ∧
    lower scheme = "bearer" ∧
    jwt_decode now token (jwt_secret_key cfg) [jwt_algorithm cfg]
               ["exp"; "sub"] = Ok payload ∧
    subject token_info = default (PStr "") (payload !! "sub") ∧
    default (PList []) (payload !! "scope") = pylist_of (scopes token_info).
Proof.
  intros Hok.
  apply validate_token_Ok_inv in Hok
    as (header & scheme & token & payload & -> & -> & _ & Hlow & Hdec & Hclaims).
  apply extract_claims_Ok_inv in Hclaims
    as (Hsubject & items & Hscope & Hall & Hscopes).
  exists scheme, token, payload. split_and!; try done.
  rewrite Hscope, Hscopes. unfold pylist_of. by rewrite map_PStr_str_of.
Qed.

Lemma validate_token_success_means_decoded_witness :
  ∃ scheme token payload,
    Some "bearer bob.jwt" = Some (scheme +:+ " " +:+ token) ∧
    lower scheme = "bearer" ∧
    sample_decode 1000 token (jwt_secret_key settings)
      [jwt_algorithm settings] ["exp"; "sub"] = Ok payload ∧
    PStr "bob" = default (PStr "") (payload !! "sub") ∧
    default (PList []) (payload !! "scope")
      = pylist_of ["public:read"; "confidential:read"].
Proof.
  exact (validate_token_success_means_decoded sample_decode settings 1000
           (Some "bearer bob.jwt")
           {| subject := PStr "bob";
              scopes := ["public:read"; "confidential:read"] |}
           ltac:(vm_compute; reflexivity)).
Defined.



(** X13. The malformed-header refusal is raised for exactly the non-empty
    headers that have no space or whose text before the first space is not
    "bearer" up to letter case; no failure of the decoder or of the claims
    is reported with that message. *)
Theorem malformed_header_iff
    (jwt_decode : JwtDecode) (cfg : Settings) (now : Z) (h : string) :
  validate_token jwt_decode cfg now (Some h)
    = Err (mkAuthError
             "Invalid Authorization header format, expected 'Bearer <token>'")
  ↔
  h ≠ "" ∧
  ∀ scheme token,
    split_space_1 h = [scheme; token] → lower scheme ≠ "bearer".
Proof.
  split; [|intros [Hne Hbad]; by apply validate_token_malformed].
  unfold validate_token, decode_token, extract_claims.
  destruct h as [|c h]; simpl; [discriminate|].
  intros Hrun. split; [done|]. intros scheme token Hsplit Hlow.
  rewrite Hsplit in Hrun. rewrite bool_decide_true in Hrun by done.
  simpl in Hrun. unfold mkAuthError in Hrun.
  repeat case_match; by simplify_eq/=.
Qed.

Lemma malformed_header_iff_witness :
  validate_token sample_decode settings 1000 (Some " Bearer alice.jwt")
    = Err (mkAuthError
             "Invalid Authorization header format, expected 'Bearer <token>'").
Proof.
  apply (malformed_header_iff sample_decode settings 1000 " Bearer alice.jwt").
  split; [done|]. by intros scheme token [= <- <-].
Defined.

(** ** The log formatter *)

Section DictFacts.

Import logfmt.

Lemma dict_get_set (d : PyDict) (k k' : string) (v : pyval) :
  dict_get (dict_set d k v) k'
  = if bool_decide (k = k') then Some v else dict_get d k'.
Proof.
  induction d as [|[k0 v0] d IH]; simpl.
  - done.
  - destruct (decide (k0 = k)) as [->|Hne].
    + rewrite bool_decide_true by done. simpl. by case_bool_decide.
    + rewrite (bool_decide_false (k0 = k)) by done. simpl. rewrite IH.
      repeat case_bool_decide; by simplify_eq.
Qed.

Lemma dict_get_app (d1 d2 : PyDict) (k : string) :
  dict_get (d1 ++ d2)%list k
  = match dict_get d1 k with Some v => Some v | None => dict_get d2 k end.
Proof.
  induction d1 as [|[k0 v0] d1 IH]; simpl; [done|].
  by case_bool_decide.
Qed.

Lemma dict_get_update (d other : PyDict) (k : string) :
  dict_get (dict_update d other) k
  = match dict_get (rev other) k with
    | Some v => Some v
    | None => dict_get d k
    end.
Proof.
  unfold dict_update. revert d.
  induction other as [|[k0 v0] other IH]; intros d; simpl; [done|].
  rewrite IH, dict_get_app, dict_get_set. simpl.
  destruct (dict_get (rev other) k); [done|]. by case_bool_decide.
Qed.

Lemma dict_set_keys (d : PyDict) (k : string) (v : pyval) :
  ∃ extra, map fst (dict_set d k v) = (map fst d ++ extra)%list.
Proof.
  induction d as [|[k0 v0] d [extra IH]]; simpl.
  - by exists [k].
  - case_bool_decide; simpl.
    + exists []. by rewrite app_nil_r.
    + exists extra. by rewrite IH.
Qed.

Lemma dict_update_keys (d other : PyDict) :
  ∃ extra, map fst (dict_update d other) = (map fst d ++ extra)%list.
Proof.
  unfold dict_update. revert d.
  induction other as [|[k0 v0] other IH]; intros d; simpl.
  - exists []. by rewrite app_nil_r.
  - destruct (IH (dict_set d k0 v0)) as [extra2 ->].
    destruct (dict_set_keys d k0 v0) as [extra1 ->].
    exists (extra1 ++ extra2)%list. by rewrite app_assoc.
Qed.

End DictFacts.

(** X14. In the dictionary that [JSONLogFormatter.format] serialises, a
    field has the value that [auth_data] gives it whenever [auth_data] has
    the key, so a key named like a base field replaces that field, and the
    base value otherwise; the four base fields always come first, in the
    order timestamp, level, logger, message. *)
Theorem log_entry_fields (formatTime : logfmt.PyLogRecord → string)
    (record : logfmt.PyLogRecord) (key : string) :
  let base := [("timestamp", PStr (formatTime record));
               ("level", PStr (logfmt.rec_levelname record));
               ("logger", PStr (logfmt.rec_name record));
               ("message", PStr (logfmt.rec_message record))] in
  logfmt.dict_get (logfmt.log_entry formatTime record) key
  = match logfmt.rec_auth_data record with
    | Some auth_data =>
        match logfmt.dict_get (rev auth_data) key with
        | Some v => Some v
        | None => logfmt.dict_get base key
        end
    | None => logfmt.dict_get base key
    end ∧
  ∃ extra,
    map fst (logfmt.log_entry formatTime record)
    = (["timestamp"; "level"; "logger"; "message"] ++ extra)%list.
Proof.
  intros base. unfold logfmt.log_entry. fold base.
  destruct (logfmt.rec_auth_data record) as [auth|].
  - split; [apply dict_get_update | apply (dict_update_keys base auth)].
  - split; [done | by exists []].
Qed.

(** X15. Every record that the two hooks log is formatted without loss:
    none of its [auth_data] keys collides with a base field or with another
    key, so the serialised dictionary is the four base fields, with logger
    "mcp-server", followed by the [auth_data] fields as logged. *)
Theorem hook_records_format_cleanly {R : Type}
    (jwt_decode : JwtDecode) (cfg : Settings) (scope_map : gmap string string)
    (now : Z) (http_request : option Request) (request_id : string)
    (context : CallToolContext) (call_next : CallNext CallToolContext R)
    (list_context : ListToolsContext)
    (list_next : CallNext ListToolsContext (list Tool))
    (formatTime : logfmt.PyLogRecord → string)
    (json_dumps : logfmt.PyDict → string) (created : Z) (r : LogRecord) :
  Logged r ∈ fst (on_call_tool jwt_decode cfg scope_map now http_request
                    request_id context call_next) ∨
  Logged r ∈ fst (on_list_tools jwt_decode cfg scope_map now http_request
                    request_id list_context list_next) →
  logfmt.format formatTime json_dumps (logfmt.emitted created r)
  = json_dumps
      ([("timestamp", PStr (formatTime (logfmt.emitted created r)));
        ("level", PStr (logfmt.levelname_of (level r)));
        ("logger", PStr "mcp-server");
        ("message", PStr (text r))] ++ auth_data r)%list.
Proof.
  unfold logfmt.format, on_call_tool, on_list_tools, _authenticate, invoke.
  intros Hin. f_equal.
  destruct (validate_token jwt_decode cfg now (_get_auth_header http_request))
    as [ti|e]; simpl in Hin.
  - destruct (scope_map !! message_name context) as [required|];
      [destruct (bool_decide (required ∈ scopes ti))|];
      destruct (call_next context) as [effects out];
      destruct (list_next list_context) as [effects' [all_tools|e']];
      simpl in Hin; rewrite ?elem_of_cons, ?elem_of_nil in Hin;
      destruct_or!; by simplify_eq.
  - rewrite ?elem_of_cons, ?elem_of_nil in Hin. destruct_or!; by simplify_eq.
Qed.

Lemma hook_records_format_cleanly_witness :
  let r := {| level := WARNING;
              text := "Authentication failed";
              auth_data := [("request_id", PStr "1a2b3c4d");
                            ("decision", PStr "rejected");
                            ("reason", PStr "authentication_failed")] |} in
  logfmt.format (fun _ => "2026-02-06 10:30:00,000") (fun d => "")
    (logfmt.emitted 0 r)
  = (fun d : logfmt.PyDict => "")
      ([("timestamp", PStr "2026-02-06 10:30:00,000");
        ("level", PStr "WARNING");
        ("logger", PStr "mcp-server");
        ("message", PStr "Authentication failed")] ++ auth_data r)%list.
Proof.
  apply (hook_records_format_cleanly sample_decode settings TOOL_SCOPE_MAP
           1000 None "1a2b3c4d" (call_of "get_public_info") echo_tool
           () list_catalog).
  left. apply list_elem_of_here.
Defined.

(** ** The tools and the readiness probe *)


